(** * Voltage-Pricer: the hourly load-curve generator and the spreadsheet exporter

    Shallow embedding of [src/ingestion/curve_generator.py]
    ([LoadCurveGenerator.__init__], [LoadCurveGenerator.generate_profile]), of
    [src/reporting/excel_export.py] ([export_pricing_to_excel]: the hourly
    sheet with its chart, then the summary and cost sheets) and of the cost
    stack and the export call of [app.py].

    Conventions of the embedding.
    - A numpy float array is a [list R]: binary64 values are idealised as real
      numbers.  Every statement about a sum, a quotient or a test against zero
      is a statement of exact arithmetic; it says nothing of the rounding,
      overflow and cancellation of binary64.
    - The pandas calendar is the proleptic Gregorian calendar, a timestamp
      being a day ordinal (as Python's [date.toordinal]) and an hour of day.
      [init year] is the calendar of the integer [year];
      [LoadCurveGenerator_of_year] says for which years the constructor, which
      hands pandas the year as text, builds that calendar.
    - [generate_profile] talks to the outside: it prints, it asks the Elia
      connector for data, it draws from numpy's global random state and it may
      raise.  These effects are explicit: a computation is a function from a
      [World] to a [result] and a new [World]. *)

From Stdlib Require Import ZArith List Ascii String Reals Lra Lia.
From stdpp Require Import base list strings gmap.

Local Open Scope string_scope.
Local Open Scope Z_scope.

(** ** Calendar *)

Module Calendar.

(** Python's [calendar.isleap] rule, the one pandas follows. *)
Definition is_leap (y : Z) : bool :=
  (y mod 4 =? 0) && (negb (y mod 100 =? 0) || (y mod 400 =? 0)).

(** Number of days before January 1st of year [y] (year 1 starts at 0). *)
Definition days_before_year (y : Z) : Z :=
  let p := y - 1 in p * 365 + p / 4 - p / 100 + p / 400.

(** Number of days of year [y] before the first day of month [m]. *)
Definition days_before_month (y m : Z) : Z :=
  nth (Z.to_nat m) [0; 0; 31; 59; 90; 120; 151; 181; 212; 243; 273; 304; 334] 0
  + (if (2 <? m) && is_leap y then 1 else 0).

Definition ymd2ord (y m d : Z) : Z :=
  days_before_year y + days_before_month y m + d.

(** An hourly timestamp: the ordinal of its day and its hour of day. *)
Record Timestamp := mkTimestamp { ts_ordinal : Z; ts_hour : Z }.

(** [Timestamp("y-m-d hh:00")]. *)
Definition timestamp (y m d hh : Z) : Timestamp :=
  {| ts_ordinal := ymd2ord y m d; ts_hour := hh |}.

(** [DatetimeIndex.hour] and [DatetimeIndex.dayofweek] (Monday = 0,
    Sunday = 6), for one entry. *)
Definition hour (t : Timestamp) : Z := ts_hour t.
Definition dayofweek (t : Timestamp) : Z := (ts_ordinal t + 6) mod 7.

Definition to_hours (t : Timestamp) : Z := 24 * ts_ordinal t + ts_hour t.
Definition of_hours (h : Z) : Timestamp :=
  {| ts_ordinal := h / 24; ts_hour := h mod 24 |}.

(** [pd.date_range(start, end, freq="h")]: every hour from [start] to
    [stop], both included. *)
Definition date_range (start stop : Timestamp) : list Timestamp :=
  map (fun k => of_hours (to_hours start + Z.of_nat k))
      (seq 0 (Z.to_nat (to_hours stop - to_hours start + 1))).

End Calendar.
Export Calendar.

(** ** Results and exceptions *)

(** The exceptions the modelled code can meet: a fault of the Elia connector
    (whatever it raises propagates), and numpy's / pandas' shape errors.  The
    volume being a real number here, the [OverflowError] of a Python integer
    volume too large for a float has no counterpart: statements about which
    calls raise bound the volume by [float_max]. *)
Inductive exn :=
| EliaFault
| ValueError (msg : string)
| IndexError (msg : string).

Inductive result (A : Type) :=
| Ok (a : A)
| Raise (e : exn).
Arguments Ok {A} a.
Arguments Raise {A} e.

(** ** The numpy operations the generator uses *)

Module Numpy.

Definition np_zeros (n : nat) : list R := replicate n 0%R.

(** [arr.sum()] *)
Definition np_sum (arr : list R) : R := foldr Rplus 0%R arr.

(** [np.tile(pattern, repeats)] *)
Fixpoint np_tile {A} (pattern : list A) (repeats : nat) : list A :=
  match repeats with
  | O => []
  | S k => pattern ++ np_tile pattern k
  end.

(** [np.maximum(arr, c)] *)
Definition np_maximum (arr : list R) (c : R) : list R :=
  map (fun x => Rmax x c) arr.

(** [np.sin(arr)] *)
Definition np_sin (arr : list R) : list R := map sin arr.

(** [arr / c] and [arr * c] *)
Definition np_div (arr : list R) (c : R) : list R := map (fun x => (x / c)%R) arr.
Definition np_mul (arr : list R) (c : R) : list R := map (fun x => (x * c)%R) arr.

(** Comparisons of an integer index with a scalar, giving a boolean mask. *)
Definition mask_ge (xs : list Z) (c : Z) : list bool := map (fun x => c <=? x) xs.
Definition mask_le (xs : list Z) (c : Z) : list bool := map (fun x => x <=? c) xs.
Definition mask_lt (xs : list Z) (c : Z) : list bool := map (fun x => x <? c) xs.

(** [a & b], [~a], [mask.sum()], [index.isin(values)] *)
Definition mask_and (a b : list bool) : list bool := zip_with andb a b.
Definition mask_not (a : list bool) : list bool := map negb a.
Fixpoint mask_count (a : list bool) : nat :=
  match a with
  | [] => O
  | b :: a' => ((if b then 1 else 0) + mask_count a')%nat
  end.
Definition isin (xs : list Z) (values : list Z) : list bool :=
  map (fun x => existsb (Z.eqb x) values) xs.

(** [xs[mask]]: the entries where the mask is true, in order. *)
Fixpoint mask_select {A} (xs : list A) (mask : list bool) : list A :=
  match xs, mask with
  | x :: xs', b :: mask' =>
      if b then x :: mask_select xs' mask' else mask_select xs' mask'
  | _, _ => []
  end.

(** Walks the array and the mask together, the k-th true position taking the
    k-th value. *)
Fixpoint mask_put (arr : list R) (mask : list bool) (vals : list R) : list R :=
  match arr, mask with
  | x :: arr', b :: mask' =>
      if b
      then match vals with
           | v :: vals' => v :: mask_put arr' mask' vals'
           | [] => x :: mask_put arr' mask' []
           end
      else x :: mask_put arr' mask' vals
  | _, _ => arr
  end.

(** [arr[mask] = c] *)
Definition mask_fill (arr : list R) (mask : list bool) (c : R) : result (list R) :=
  if negb (length mask =? length arr)%nat
  then Raise (IndexError "boolean index did not match indexed array")
  else Ok (zip_with (fun x (b : bool) => if b then c else x) arr mask).

(** [arr[mask] = vals].  numpy raises when the mask does not have the shape
    of the array; as many values as true entries are stored in order; a single
    value is broadcast; any other number of values raises. *)
Definition mask_assign (arr : list R) (mask : list bool) (vals : list R)
  : result (list R) :=
  if negb (length mask =? length arr)%nat
  then Raise (IndexError "boolean index did not match indexed array")
  else if (length vals =? mask_count mask)%nat
  then Ok (mask_put arr mask vals)
  else match vals with
       | [v] => mask_fill arr mask v
       | _ => Raise (ValueError "cannot assign input values to the output values where the mask is true")
       end.

(** [arr[mask] *= c] *)
Definition mask_scale (arr : list R) (mask : list bool) (c : R) : result (list R) :=
  if negb (length mask =? length arr)%nat
  then Raise (IndexError "boolean index did not match indexed array")
  else Ok (zip_with (fun x (b : bool) => if b then (x * c)%R else x) arr mask).

End Numpy.
Export Numpy.

(** ** The outside world: console, Elia connector, random state, settings *)

Module Effects.

(** What a call leaves behind, in order. *)
Inductive Event :=
| EvPrint (line : string)
| EvFetch (days : Z)
| EvNormal (loc scale : R) (size : nat).

(** - [rng]: the standard normal variates numpy's global generator will
      deliver next ([rng w 0] first);
    - [elia_response]: what [EliaDataConnector.fetch_real_load_curve(days)]
      answers, a series of hourly values (possibly empty) or a fault;
    - [weekend_days]: [SETTINGS.WEEKEND_DAYS];
    - [log]: the events so far. *)
Record World := mkWorld {
  rng : nat -> R;
  elia_response : Z -> result (list R);
  weekend_days : list Z;
  log : list Event
}.

Definition M (A : Type) : Type := World -> result A * World.

Definition emit (e : Event) (w : World) : World :=
  {| rng := rng w; elia_response := elia_response w;
     weekend_days := weekend_days w; log := log w ++ [e] |}.

#[export] Instance M_ret : MRet M := fun A a w => (Ok a, w).
#[export] Instance M_bind : MBind M := fun A B f m w =>
  match m w with
  | (Ok a, w') => f a w'
  | (Raise e, w') => (Raise e, w')
  end.

(** A pure step that may raise. *)
Definition lift {A} (r : result A) : M A := fun w => (r, w).

Definition print (line : string) : M unit := fun w => (Ok tt, emit (EvPrint line) w).

(** [self.elia.fetch_real_load_curve(days=days)] *)
Definition fetch_real_load_curve (days : Z) : M (list R) :=
  fun w => (elia_response w days, emit (EvFetch days) w).

(** [SETTINGS.WEEKEND_DAYS] *)
Definition SETTINGS_WEEKEND_DAYS : M (list Z) := fun w => (Ok (weekend_days w), w).

(** The generator after [size] variates were taken. *)
Definition advance (size : nat) (w : World) : World :=
  {| rng := fun k => rng w (size + k)%nat; elia_response := elia_response w;
     weekend_days := weekend_days w; log := log w |}.

(** [np.random.normal(loc, scale, size)]: [size] variates are taken from the
    generator, each turned into [loc + scale * z]. *)
Definition np_random_normal (loc scale : R) (size : nat) : M (list R) :=
  fun w =>
    (Ok (map (fun k => (loc + scale * rng w k)%R) (seq 0 size)),
     emit (EvNormal loc scale size) (advance size w)).

End Effects.
Export Effects.

(** ** The generator *)

Module CurveGenerator.

(** [pd.Series]: values, index and name. *)
Record Series := mkSeries {
  values : list R;
  index : list Timestamp;
  name : string
}.

(** [pd.Series(values, index=index, name=name)]; pandas refuses values whose
    length is not that of the index. *)
Definition pd_Series (vals : list R) (idx : list Timestamp) (nm : string) : result Series :=
  if (length vals =? length idx)%nat
  then Ok {| values := vals; index := idx; name := nm |}
  else Raise (ValueError "Length of values does not match length of index").

(** The fields [__init__] sets ([self.elia] is the connector of the [World]). *)
Record LoadCurveGenerator := mkGenerator {
  year : Z;
  dates : list Timestamp;
  n_hours : nat
}.

(** [LoadCurveGenerator.__init__(year)] when pandas reads the two bounds as
    January 1st 00:00 and December 31st 23:00 of [year]: the generator over
    the calendar of the integer [year]. *)
Definition init (year : Z) : LoadCurveGenerator :=
  let dates := date_range (timestamp year 1 1 0) (timestamp year 12 31 23) in
  {| year := year; dates := dates; n_hours := length dates |}.

(** [LoadCurveGenerator(year)] as the program gets it.  Lines 26-30 hand
    pandas the texts [f"{year}-01-01"] and [f"{year}-12-31 23:00"], and the
    calendar is what pandas reads in them.
    - From 1678 to 2261 the year is written with four digits, the texts are
      ISO dates and both bounds fit pandas' nanosecond timestamps: the
      calendar is that of the year.
    - For year 1 the texts are 1-01-01 and 1-12-31 23:00, no ISO dates;
      pandas' fallback parser reads them month first, day second, and the
      last number as a two-digit year of this century: January 1st 2001 and
      January 12th 2031.
    - For the other years the reading depends on that parser's guesses and on
      the bounds of the pandas version at hand; they are not modelled
      ([None]). *)
Definition LoadCurveGenerator_of_year (year : Z) : option LoadCurveGenerator :=
  if (1678 <=? year) && (year <=? 2261) then Some (init year)
  else if year =? 1 then
    let dates := date_range (timestamp 2001 1 1 0) (timestamp 2031 1 12 23) in
    Some {| year := 1; dates := dates; n_hours := length dates |}
  else None.

(** The largest binary64 number: a Python number beyond it cannot be
    multiplied with a float array. *)
Definition float_max : R := ((2 - / 2 ^ 52) * 2 ^ 1023)%R.

(** Lines 71-77: the normalisation of the tiled real pattern.  The total and
    its test against zero are exact. *)
Definition normalize_real (self : LoadCurveGenerator) (full_pattern : list R)
    (annual_volume_mwh : R) : list R :=
  let total_units := np_sum full_pattern in
  if Req_dec_T total_units 0
  then np_zeros (n_hours self)
  else np_mul (np_div full_pattern total_units) annual_volume_mwh.

(** Lines 166-175: the normalisation of the synthetic curve. *)
Definition normalize_synthetic (base_curve : list R) (annual_volume_mwh : R) : list R :=
  let total_units := np_sum base_curve in
  if Rgt_dec total_units 0
  then np_mul (np_div base_curve total_units) annual_volume_mwh
  else base_curve.

(** Lines 67-68: the pattern tiled and cut to the calendar. *)
Definition tile_pattern (self : LoadCurveGenerator) (pattern : list R) : list R :=
  let repeats := (n_hours self / length pattern + 1)%nat in
  take (n_hours self) (np_tile pattern repeats).

(** Lines 64-84: the branch taken on a non-empty real curve. *)
Definition real_data_profile (self : LoadCurveGenerator) (real_curve : list R)
    (annual_volume_mwh : R) : M Series :=
  let pattern := real_curve in
  let full_pattern := tile_pattern self pattern in
  let normalized_curve := normalize_real self full_pattern annual_volume_mwh in
  _ ← print "Load profile generated using real Elia data.";
  lift (pd_Series normalized_curve (dates self) "Real Load (MWh)").

(** Lines 98-113: the 24/7 industrial shape. *)
Definition industry_shape (self : LoadCurveGenerator) : M (list R) :=
  base_curve ← np_random_normal 1.0 0.05 (n_hours self);
  weekend ← SETTINGS_WEEKEND_DAYS;
  let is_weekend := isin (map dayofweek (dates self)) weekend in
  lift (mask_scale base_curve is_weekend 0.85).

(** Lines 126-131: the working-hours mask. *)
Definition is_working_mask (self : LoadCurveGenerator) : list bool :=
  let hour := map hour (dates self) in
  mask_and (mask_and (mask_ge hour 8) (mask_le hour 18))
           (mask_lt (map dayofweek (dates self)) 5).

(** Lines 121-137: the office shape. *)
Definition office_shape (self : LoadCurveGenerator) (base_curve : list R) : M (list R) :=
  let is_working := is_working_mask self in
  draws ← np_random_normal 1.0 0.1 (mask_count is_working);
  base_curve ← lift (mask_assign base_curve is_working draws);
  lift (mask_fill base_curve (mask_not is_working) 0.1).

(** Lines 148-149: the daylight mask. *)
Definition daylight_mask (self : LoadCurveGenerator) : list bool :=
  let hour := map hour (dates self) in
  mask_and (mask_ge hour 6) (mask_le hour 20).

(** Lines 145-161: the solar shape. *)
Definition solar_shape (self : LoadCurveGenerator) (base_curve : list R) : M (list R) :=
  let hour := map hour (dates self) in
  let daylight := daylight_mask self in
  let angles := map (fun h => (IZR (h - 6) * PI / 14)%R) (mask_select hour daylight) in
  base_curve ← lift (mask_assign base_curve daylight (np_sin angles));
  mret (np_maximum base_curve 0).

(** Lines 92-161: the zero curve, then the shaping branch of the archetype;
    a string that is none of the three leaves the curve as it is. *)
Definition synthetic_shape (self : LoadCurveGenerator) (profile_type : string)
  : M (list R) :=
  let base_curve := np_zeros (n_hours self) in
  if String.eqb profile_type "INDUSTRY_24_7" then industry_shape self
  else if String.eqb profile_type "OFFICE_BUILDING" then office_shape self base_curve
  else if String.eqb profile_type "SOLAR_PPA" then solar_shape self base_curve
  else mret base_curve.

(** Lines 89-186: the synthetic generator. *)
Definition synthetic_profile (self : LoadCurveGenerator) (profile_type : string)
    (annual_volume_mwh : R) : M Series :=
  _ ← print "Using synthetic load generator (fallback).";
  base_curve ← synthetic_shape self profile_type;
  let normalized_curve := normalize_synthetic base_curve annual_volume_mwh in
  lift (pd_Series normalized_curve (dates self) "Synthetic Load").

(** [LoadCurveGenerator.generate_profile(profile_type, annual_volume_mwh)] *)
Definition generate_profile (self : LoadCurveGenerator) (profile_type : string)
    (annual_volume_mwh : R) : M Series :=
  if String.eqb profile_type "INDUSTRY_24_7" then
    _ ← print "Attempting to retrieve real Elia load profile...";
    real_curve ← fetch_real_load_curve 14;
    match real_curve with
    | _ :: _ => real_data_profile self real_curve annual_volume_mwh
    | [] => synthetic_profile self profile_type annual_volume_mwh
    end
  else synthetic_profile self profile_type annual_volume_mwh.

End CurveGenerator.
Export CurveGenerator.

(** ** The hourly-data tab of the spreadsheet export *)

Module ExcelExport.

Inductive Cell :=
| CText (s : string)
| CNumber (x : R)
| CDate (t : Timestamp).

(** A worksheet as its rows, top row (Excel row 1) first; a row as its cells,
    column A first. *)
Definition Worksheet := list (list Cell).

(** A one-column frame with a named index, as [Series.to_frame] gives. *)
Record DataFrame := mkDataFrame {
  index_name : string;
  column_name : string;
  df_index : list Timestamp;
  df_values : list R
}.

(** [load_curve.to_frame(name=...)] followed by [df.index.name = ...] *)
Definition to_frame (load_curve : Series) (column idx_name : string) : DataFrame :=
  {| index_name := idx_name; column_name := column;
     df_index := index load_curve; df_values := values load_curve |}.

(** [df.to_excel(writer, sheet_name=...)]: a header row, then one row per
    entry of the frame, index in column A and value in column B. *)
Definition to_excel (df : DataFrame) : Worksheet :=
  [CText (index_name df); CText (column_name df)]
  :: zip_with (fun t v => [CDate t; CNumber v]) (df_index df) (df_values df).

(** An absolute one-column range of a sheet, ['=Sheet!$C$a:$C$b'], with column
    A numbered 0 and rows numbered from 1 as Excel does. *)
Record CellRange := mkRange {
  range_sheet : string;
  range_column : nat;
  first_row : nat;
  last_row : nat
}.

Record ChartSeries := mkChartSeries {
  series_name_cell : string * nat * nat;
  categories : CellRange;
  series_values : CellRange
}.

Record Chart := mkChart {
  chart_type : string;
  chart_series : list ChartSeries;
  chart_title : string;
  x_axis_name : string;
  y_axis_name : string;
  chart_anchor : string
}.

(** A worksheet of the workbook, under its name. *)
Record Sheet := mkSheet {
  sheet_name : string;
  cells : Worksheet
}.

(** The cells a range designates in a sheet: nothing when the range names
    another sheet; rows the sheet does not have are empty cells and give
    nothing. *)
Definition range_cells (sh : Sheet) (r : CellRange) : list Cell :=
  if String.eqb (range_sheet r) (sheet_name sh)
  then omap (fun row => row !! range_column r)
            (take (S (last_row r) - first_row r) (drop (first_row r - 1) (cells sh)))
  else [].

(** [export_pricing_to_excel], for what it does with [load_curve]: lines
    72-95, the sheet 'Données Horaires' and the line chart inserted in it at
    cell D2.  (The two other sheets are built from [df_costs], [volume],
    [market_prices] and [final_price] only.)  The chart's series is
    ['=Données Horaires!$B$1'] for the name,
    ['=Données Horaires!$A$2:$A$169'] for the categories and
    ['=Données Horaires!$B$2:$B$169'] for the values. *)
Definition export_pricing_to_excel (load_curve : Series) : Sheet * Chart :=
  let df_load := to_frame load_curve "Puissance (MW)" "Horodatage" in
  let worksheet_load :=
    {| sheet_name := "Données Horaires"; cells := to_excel df_load |} in
  let chart :=
    {| chart_type := "line";
       chart_series :=
         [ {| series_name_cell := ("Données Horaires", 1, 1)%nat;
              categories := mkRange "Données Horaires" 0 2 169;
              series_values := mkRange "Données Horaires" 1 2 169 |} ];
       chart_title := "Profil de Consommation (Semaine Type)";
       x_axis_name := "Heure";
       y_axis_name := "MW";
       chart_anchor := "D2" |} in
  (worksheet_load, chart).

(** The points a chart plots, read in the worksheet it is inserted in. *)
Definition charted_values (tab : Sheet * Chart) : list (list Cell) :=
  map (fun s => range_cells (fst tab) (series_values s)) (chart_series (snd tab)).
Definition charted_categories (tab : Sheet * Chart) : list (list Cell) :=
  map (fun s => range_cells (fst tab) (categories s)) (chart_series (snd tab)).

(** The data rows of a sheet written by [to_excel]: all but the header. *)
Definition data_rows (sh : Sheet) : list (list Cell) := drop 1 (cells sh).

End ExcelExport.
Export ExcelExport.

(** ** Vocabulary of the statements *)

(** What a computation returns, the world it leaves and the events it adds
    to the log. *)
Definition outcome {A} (m : M A) (w : World) : result A := fst (m w).
Definition world_after {A} (m : M A) (w : World) : World := snd (m w).
Definition events_of {A} (m : M A) (w : World) : list Event :=
  drop (length (log w)) (log (snd (m w))).

(** The tiling in the words of the specification: the pattern repeated
    [ceil(n_hours / len(pattern))] times, cut to [n_hours] values. *)
Definition ceil_div (a b : nat) : nat := ((a + b - 1) / b)%nat.
Definition tiled_as_specified (n_hours : nat) (pattern : list R) : list R :=
  take n_hours (np_tile pattern (ceil_div n_hours (length pattern))).

(** A world for the examples: a random state that only delivers the variate
    [z], a connector with one fixed answer, Saturday and Sunday as weekend
    days, an empty log. *)
Definition still_world (z : R) (response : result (list R)) : World :=
  {| rng := fun _ => z; elia_response := fun _ => response;
     weekend_days := [5; 6]; log := [] |}.

(** A world whose random state alternates the variates 0 and -40 (so that
    the Gaussian(1.0, 0.05) draws alternate 1 and -1), with an empty answer of
    the connector and no weekend day configured. *)
Definition alternating_world : World :=
  {| rng := fun k => if (k mod 2 =? 0)%nat then 0%R else (-40)%R;
     elia_response := fun _ => Ok [];
     weekend_days := []; log := [] |}.

(** ** The two summary tabs of the spreadsheet export *)

Module SummaryTabs.

(** xlsxwriter keeps the cells it is asked to write by (row, column), both
    counted from 0; a cell nobody wrote is absent. *)
Abbreviation Grid := (gmap (nat * nat) Cell).

(** [worksheet.write(row, col, value, cell_format)], a write with a format:
    the cell is stored, and a later write to the same place replaces the
    earlier one.  (The formats themselves are left out.) *)
Definition worksheet_write (ws : Grid) (row col : nat) (v : Cell) : Grid :=
  <[(row, col) := v]> ws.

(** [worksheet.write(row, col, value)], a write without a format: xlsxwriter
    ignores an empty string that comes without a format, and the place stays
    as it was. *)
Definition worksheet_write_plain (ws : Grid) (row col : nat) (v : Cell) : Grid :=
  match v with
  | CText EmptyString => ws
  | _ => worksheet_write ws row col v
  end.

(** The cells of a header row, which pandas writes with its header format,
    from column [col] on. *)
Fixpoint write_row (ws : Grid) (row col : nat) (cells : list Cell) : Grid :=
  match cells with
  | [] => ws
  | v :: cells' => write_row (worksheet_write ws row col v) row (S col) cells'
  end.

(** The cells of a body row, which pandas writes without a format, from
    column [col] on. *)
Fixpoint write_row_plain (ws : Grid) (row col : nat) (cells : list Cell) : Grid :=
  match cells with
  | [] => ws
  | v :: cells' =>
      write_row_plain (worksheet_write_plain ws row col v) row (S col) cells'
  end.

(** Body rows written one under the other from row [row] on, each from
    column A. *)
Fixpoint write_rows (ws : Grid) (row : nat) (rows : list (list Cell)) : Grid :=
  match rows with
  | [] => ws
  | cells :: rows' => write_rows (write_row_plain ws row 0 cells) (S row) rows'
  end.

(** What a write without a format leaves of a value. *)
Definition kept (v : Cell) : option Cell :=
  match v with
  | CText EmptyString => None
  | _ => Some v
  end.

(** A frame as it is written with [index=False]: column names and rows. *)
Record PlainFrame := mkPlainFrame {
  frame_columns : list string;
  frame_rows : list (list Cell)
}.

(** [df.to_excel(writer, sheet_name=..., index=False, startrow=startrow)] on
    a fresh sheet: the column names in row [startrow], written with the header
    format, and the rows under it, written without a format. *)
Definition to_excel_at (startrow : nat) (df : PlainFrame) : Grid :=
  write_rows (write_row ∅ startrow 0 (map CText (frame_columns df)))
             (S startrow) (frame_rows df).

(** What pandas hands to the writer for a missing value ([np.nan]): its
    [na_rep], the empty string (which, written without a format, leaves no
    cell). *)
Definition nan_cell : Cell := CText "".

(** Lines 30-47: [df_summary]; [market_prices.get(key, 0)] is 0 for a key the
    dictionary does not have. *)
Definition df_summary (volume : R) (market_prices : gmap string R) (final_price : R)
  : PlainFrame :=
  {| frame_columns := ["Indicateur Clé"; "Valeur"];
     frame_rows :=
       zip_with (fun label value => [CText label; value])
         [ "Volume Annuel (MWh)";
           "Prix Base (Cal-26)";
           "Prix Peak (Cal-26)";
           "";
           "PRIX VENTE FINAL (€/MWh)";
           "Budget Total Estimé (€)" ]
         [ CNumber volume;
           CNumber (default 0%R (market_prices !! "CAL_BASE"));
           CNumber (default 0%R (market_prices !! "CAL_PEAK"));
           nan_cell;
           CNumber final_price;
           CNumber (final_price * volume) ] |}.

(** Lines 49-57: the sheet 'Synthèse Commerciale'. *)
Definition summary_sheet (volume : R) (market_prices : gmap string R) (final_price : R)
  : Grid :=
  let worksheet_sum := to_excel_at 1 (df_summary volume market_prices final_price) in
  let worksheet_sum :=
    worksheet_write worksheet_sum 0 0
      (CText "OFFRE DE FOURNITURE D'ÉLECTRICITÉ - SYNTHÈSE") in
  let worksheet_sum := worksheet_write worksheet_sum 6 1 (CNumber final_price) in
  worksheet_write worksheet_sum 7 1 (CNumber (final_price * volume)).

(** Lines 62-67: the sheet 'Décomposition Coûts'. *)
Definition costs_sheet (df_costs : PlainFrame) : Grid :=
  let worksheet_cost := to_excel_at 1 df_costs in
  worksheet_write worksheet_cost 0 0 (CText "DÉTAIL DE LA STRUCTURE DE PRIX (€/MWh)").

(** The numbers of a column of a sheet, rows [first] to [first + count - 1]. *)
Definition column_numbers (ws : Grid) (col first count : nat) : list R :=
  omap (fun row => match ws !! (row, col) with
                   | Some (CNumber x) => Some x
                   | _ => None
                   end) (seq first count).

End SummaryTabs.
Export SummaryTabs.

(** ** The cost stack and the export of [app.py] *)

Module App.

(** The fees of [SETTINGS] the cost stack reads. *)
Record Settings := mkSettings {
  ELIA_GRID_FEE : R;
  DISTRIBUTION_GRID_FEE : R;
  TAXES_AND_LEVIES : R;
  GREEN_CERT_COST : R
}.

(** Lines 189-191 *)
Definition grid_fees (SETTINGS : Settings) : R :=
  (ELIA_GRID_FEE SETTINGS + DISTRIBUTION_GRID_FEE SETTINGS)%R.
Definition taxes (SETTINGS : Settings) : R :=
  (TAXES_AND_LEVIES SETTINGS + GREEN_CERT_COST SETTINGS)%R.
Definition margin : R := 2.50%R.

(** Lines 194-201: [final_price], from the weighted average price of the
    pricing engine and the two premiums of the risk engine. *)
Definition final_price (SETTINGS : Settings)
    (weighted_average_price profiling_cost volume_risk : R) : R :=
  (weighted_average_price + profiling_cost + volume_risk
   + grid_fees SETTINGS + taxes SETTINGS + margin)%R.

(** Lines 246-253 *)
Definition cost_items (SETTINGS : Settings)
    (weighted_average_price profiling_cost volume_risk : R) : list (string * R) :=
  [ ("Commodity (Base)", weighted_average_price);
    ("Profiling Risk", profiling_cost);
    ("Volume Risk", volume_risk);
    ("Grid Fees", grid_fees SETTINGS);
    ("Taxes & Levies", taxes SETTINGS);
    ("Margin", margin) ].

(** Line 254: [pd.DataFrame(cost_items)], columns Item and Value. *)
Definition df_costs (items : list (string * R)) : PlainFrame :=
  {| frame_columns := ["Item"; "Value"];
     frame_rows := map (fun item => [CText (fst item); CNumber (snd item)]) items |}.

(** [s.replace(old, new)] for one-character [old] and [new]. *)
Fixpoint str_replace (old new : Ascii.ascii) (s : string) : string :=
  match s with
  | EmptyString => EmptyString
  | String c s' => String (if Ascii.eqb c old then new else c) (str_replace old new s')
  end.

(** Line 283: the name of the downloaded file. *)
Definition quote_file_name (client_name : string) : string :=
  ("Quote_" ++ str_replace " "%char "_"%char client_name ++ "_2026.xlsx")%string.

(** Lines 277-279 with lines 9-97 of the exporter: the three sheets of the
    workbook the quote is exported to. *)
Definition export_quote (SETTINGS : Settings)
    (weighted_average_price profiling_cost volume_risk : R)
    (load_curve : Series) (annual_volume : R) (MARKET_PRICES : gmap string R)
  : Grid * Grid * (Sheet * Chart) :=
  let price := final_price SETTINGS weighted_average_price profiling_cost volume_risk in
  let items := cost_items SETTINGS weighted_average_price profiling_cost volume_risk in
  (summary_sheet annual_volume MARKET_PRICES price,
   costs_sheet (df_costs items),
   export_pricing_to_excel load_curve).

(** Two clicks on the button: two calls on generators of the same year, one
    after the other in the same process. *)
Definition generate_twice (year : Z) (profile_type : string) (annual_volume : R)
  : M (Series * Series) :=
  first ← generate_profile (init year) profile_type annual_volume;
  second ← generate_profile (init year) profile_type annual_volume;
  mret (first, second).

End App.
Export App.

(** * Properties *)

(** ** Arrays *)

Section ArrayFacts.

Lemma np_zeros_length n : length (np_zeros n) = n.
Proof. apply length_replicate. Qed.

Lemma np_zeros_lookup n i : (i < n)%nat -> np_zeros n !! i = Some 0%R.
Proof. intros Hi. apply lookup_replicate. auto. Qed.

Lemma np_sum_cons x l : np_sum (x :: l) = (x + np_sum l)%R.
Proof. reflexivity. Qed.

Lemma np_sum_app l1 l2 : np_sum (l1 ++ l2) = (np_sum l1 + np_sum l2)%R.
Proof.
  induction l1 as [|x l1 IH]; cbn [app]; rewrite ?np_sum_cons.
  - unfold np_sum at 2. cbn. lra.
  - rewrite IH. lra.
Qed.

Lemma np_sum_zeros n : np_sum (np_zeros n) = 0%R.
Proof.
  induction n as [|n IH]; [reflexivity|].
  unfold np_zeros in *. cbn [replicate]. rewrite np_sum_cons, IH. lra.
Qed.

Lemma np_sum_map_mul l c : np_sum (map (fun x => (x * c)%R) l) = (np_sum l * c)%R.
Proof.
  induction l as [|x l IH]; cbn [map]; rewrite ?np_sum_cons.
  - unfold np_sum. cbn. lra.
  - rewrite IH. lra.
Qed.

Lemma np_sum_rescaled l t v :
  np_sum (np_mul (np_div l t) v) = (np_sum l / t * v)%R.
Proof.
  unfold np_mul, np_div. rewrite np_sum_map_mul. f_equal.
  unfold Rdiv. apply np_sum_map_mul.
Qed.

(** Energy conservation of the rescaling, over the reals. *)
Lemma np_sum_normalized l v :
  np_sum l <> 0%R -> np_sum (np_mul (np_div l (np_sum l)) v) = v.
Proof. intros Hne. rewrite np_sum_rescaled. field. exact Hne. Qed.

Lemma np_rescaled_lookup l t v i x :
  l !! i = Some x -> np_mul (np_div l t) v !! i = Some (x / t * v)%R.
Proof.
  intros Hx. unfold np_mul, np_div.
  rewrite !list_lookup_fmap, Hx. reflexivity.
Qed.

Lemma np_rescaled_length l t v : length (np_mul (np_div l t) v) = length l.
Proof. unfold np_mul, np_div. rewrite !length_map. reflexivity. Qed.

Lemma np_sum_nonneg l : Forall (fun x => (0 <= x)%R) l -> (0 <= np_sum l)%R.
Proof.
  induction 1 as [|x l Hx _ IH]; [unfold np_sum; cbn; lra|].
  rewrite np_sum_cons. lra.
Qed.

(** A curve without negative entries whose sum is zero is the zero curve. *)
Lemma np_sum_zero_nonneg l :
  Forall (fun x => (0 <= x)%R) l -> np_sum l = 0%R -> l = np_zeros (length l).
Proof.
  induction 1 as [|x l Hx Hl IH]; [reflexivity|].
  rewrite np_sum_cons. intros Hs.
  pose proof (np_sum_nonneg l Hl) as Hn.
  assert (x = 0%R) by lra. assert (np_sum l = 0%R) by lra. subst x.
  cbn [length]. unfold np_zeros in *. cbn [replicate]. f_equal. auto.
Qed.

Lemma np_tile_length {A} (p : list A) k : length (np_tile p k) = (k * length p)%nat.
Proof.
  induction k as [|k IH]; [reflexivity|].
  cbn [np_tile]. rewrite length_app, IH. lia.
Qed.

Lemma np_tile_lookup {A} (p : list A) k i :
  (i < k * length p)%nat -> np_tile p k !! i = p !! (i mod length p)%nat.
Proof.
  revert i. induction k as [|k IH]; intros i Hi; [lia|].
  cbn [np_tile]. destruct (decide (i < length p)%nat) as [Hlt|Hge].
  - rewrite lookup_app_l by exact Hlt. rewrite Nat.mod_small by exact Hlt. reflexivity.
  - rewrite lookup_app_r by lia. rewrite IH by lia. f_equal.
    replace i with ((i - length p) + 1 * length p)%nat at 2 by lia.
    rewrite Nat.Div0.mod_add. reflexivity.
Qed.

Lemma np_tile_app {A} (p : list A) j k : np_tile p (j + k) = (np_tile p j ++ np_tile p k)%list.
Proof.
  induction j as [|j IH]; [reflexivity|].
  cbn [Nat.add np_tile]. rewrite IH, app_assoc. reflexivity.
Qed.

Lemma tile_covers (n len : nat) : (0 < len)%nat -> (n < (n / len + 1) * len)%nat.
Proof.
  intros Hlen. pose proof (Nat.div_mod_eq n len) as Hdm.
  pose proof (Nat.mod_upper_bound n len ltac:(lia)) as Hm. nia.
Qed.

Lemma np_sum_tile p k : np_sum (np_tile p k) = (INR k * np_sum p)%R.
Proof.
  induction k as [|k IH].
  - cbn. unfold np_sum. cbn. lra.
  - cbn [np_tile]. rewrite np_sum_app, IH, S_INR. lra.
Qed.

Lemma mask_put_length arr mask vals : length (mask_put arr mask vals) = length arr.
Proof.
  revert mask vals. induction arr as [|x arr IH]; intros [|b mask] vals; try reflexivity.
  cbn [mask_put]. destruct b; [destruct vals|]; cbn [length]; rewrite IH; reflexivity.
Qed.

Lemma mask_select_length {A} (xs : list A) mask :
  length xs = length mask -> length (mask_select xs mask) = mask_count mask.
Proof.
  revert mask. induction xs as [|x xs IH]; intros [|b mask] Hl; try discriminate; [reflexivity|].
  cbn [mask_select mask_count]. injection Hl as Hl.
  destruct b; cbn [length]; rewrite IH by exact Hl; reflexivity.
Qed.

(** Reading back [arr[mask] = vals]: a true position holds the value whose
    rank is the number of true positions before it, a false one is untouched. *)
Lemma mask_put_lookup arr mask vals i :
  length mask = length arr -> length vals = mask_count mask ->
  mask_put arr mask vals !! i =
    match mask !! i with
    | Some true => vals !! mask_count (take i mask)
    | _ => arr !! i
    end.
Proof.
  revert mask vals i.
  induction arr as [|x arr IH]; intros [|b mask] vals i Hl Hv; try discriminate.
  - destruct i; reflexivity.
  - injection Hl as Hl. cbn [mask_put mask_count] in *. destruct b.
    + destruct vals as [|v vals]; [discriminate|]. injection Hv as Hv.
      destruct i as [|i]; [reflexivity|].
      cbn [lookup list_lookup take mask_count Nat.add]. apply IH; assumption.
    + destruct i as [|i]; [reflexivity|].
      cbn [lookup list_lookup take mask_count Nat.add]. apply IH; assumption.
Qed.

(** Reading back [arr[mask] = f(xs[mask])]. *)
Lemma mask_put_select_lookup arr mask (xs : list Z) (f : Z -> R) i a x (b : bool) :
  arr !! i = Some a -> xs !! i = Some x -> mask !! i = Some b ->
  mask_put arr mask (map f (mask_select xs mask)) !! i = Some (if b then f x else a).
Proof.
  revert mask xs i.
  induction arr as [|a0 arr IH]; intros [|b0 mask] [|x0 xs] i Ha Hx Hb;
    try (destruct i; discriminate).
  destruct i as [|i].
  - cbn in Ha, Hx, Hb. injection Ha as ->. injection Hx as ->. injection Hb as ->.
    destruct b; reflexivity.
  - cbn [lookup list_lookup] in Ha, Hx, Hb.
    cbn [mask_put mask_select]. destruct b0; cbn [map lookup list_lookup]; apply IH; assumption.
Qed.

End ArrayFacts.

(** ** Calendar *)

Section CalendarFacts.

Lemma date_range_length a b :
  length (date_range a b) = Z.to_nat (to_hours b - to_hours a + 1).
Proof. unfold date_range. rewrite length_map, length_seq. reflexivity. Qed.

Lemma date_range_lookup a b i :
  (i < length (date_range a b))%nat ->
  date_range a b !! i = Some (of_hours (to_hours a + Z.of_nat i)).
Proof.
  rewrite date_range_length. intros Hi. unfold date_range.
  rewrite list_lookup_fmap, lookup_seq_lt by exact Hi. reflexivity.
Qed.

(** From January 1st 00:00 to December 31st 23:00 there are 24 hours for each
    of the 365 or 366 days. *)
Lemma year_span y :
  to_hours (timestamp y 12 31 23) - to_hours (timestamp y 1 1 0) + 1
  = if is_leap y then 8784 else 8760.
Proof.
  unfold to_hours, timestamp, ymd2ord, days_before_month.
  change (Z.to_nat 12) with 12%nat. change (Z.to_nat 1) with 1%nat.
  cbn. destruct (is_leap y); lia.
Qed.

Lemma init_n_hours y :
  Z.of_nat (n_hours (init y)) = if is_leap y then 8784 else 8760.
Proof.
  unfold init. cbn [n_hours]. rewrite date_range_length, year_span.
  destruct (is_leap y); lia.
Qed.

Lemma init_dates_length y : length (dates (init y)) = n_hours (init y).
Proof. reflexivity. Qed.

Lemma init_n_hours_pos y : (0 < n_hours (init y))%nat.
Proof. pose proof (init_n_hours y). destruct (is_leap y); lia. Qed.

Lemma init_dates_lookup y i :
  (i < n_hours (init y))%nat ->
  dates (init y) !! i = Some (of_hours (to_hours (timestamp y 1 1 0) + Z.of_nat i)).
Proof. intros Hi. unfold init. cbn [dates]. apply date_range_lookup. exact Hi. Qed.

(** The i-th entry of the calendar is hour [i mod 24] of its day. *)
Lemma init_dates_hour y i t :
  dates (init y) !! i = Some t -> hour t = Z.of_nat i mod 24.
Proof.
  intros Ht. pose proof (lookup_lt_Some _ _ _ Ht) as Hi.
  rewrite init_dates_length in Hi. rewrite init_dates_lookup in Ht by exact Hi.
  injection Ht as <-. unfold hour, of_hours, to_hours, timestamp. cbn [ts_hour ts_ordinal].
  rewrite Z.add_0_r, Z.add_comm, Z.mul_comm, Z.mod_add by lia. reflexivity.
Qed.

Lemma init_dates_hour_range y i t :
  dates (init y) !! i = Some t -> 0 <= hour t < 24.
Proof.
  intros Ht. rewrite (init_dates_hour _ _ _ Ht). apply Z.mod_pos_bound. lia.
Qed.

End CalendarFacts.

(** ** Masked assignments that cannot raise *)

Section MaskFacts.

Lemma mask_scale_ok arr mask c :
  length mask = length arr ->
  mask_scale arr mask c = Ok (zip_with (fun x (b : bool) => if b then (x * c)%R else x) arr mask).
Proof. intros Hl. unfold mask_scale. rewrite Hl, Nat.eqb_refl. reflexivity. Qed.

Lemma mask_fill_ok arr mask c :
  length mask = length arr ->
  mask_fill arr mask c = Ok (zip_with (fun x (b : bool) => if b then c else x) arr mask).
Proof. intros Hl. unfold mask_fill. rewrite Hl, Nat.eqb_refl. reflexivity. Qed.

Lemma mask_assign_ok arr mask vals :
  length mask = length arr -> length vals = mask_count mask ->
  mask_assign arr mask vals = Ok (mask_put arr mask vals).
Proof.
  intros Hl Hv. unfold mask_assign. rewrite Hl, Hv, !Nat.eqb_refl. reflexivity.
Qed.

Lemma mask_and_length a b : length a = length b -> length (mask_and a b) = length a.
Proof. intros H. unfold mask_and. rewrite length_zip_with. lia. Qed.

Lemma mask_and_lookup a b i x y :
  a !! i = Some x -> b !! i = Some y -> mask_and a b !! i = Some (x && y).
Proof.
  intros Ha Hb. unfold mask_and. rewrite lookup_zip_with, Ha, Hb. reflexivity.
Qed.

(** The rank of a true position is below the number of true positions, and
    ranks grow strictly from one true position to the next. *)
Lemma mask_count_take_lt mask i :
  mask !! i = Some true -> (mask_count (take i mask) < mask_count mask)%nat.
Proof.
  revert i. induction mask as [|b mask IH]; intros [|i] Hi; try discriminate.
  - cbn in Hi. injection Hi as ->. cbn. lia.
  - cbn [lookup list_lookup] in Hi. specialize (IH i Hi). cbn [take mask_count]. lia.
Qed.

Lemma mask_rank_strict mask i j :
  mask !! i = Some true -> (i < j)%nat ->
  (mask_count (take i mask) < mask_count (take j mask))%nat.
Proof.
  intros Hi Hij.
  assert (Hti : take i mask = take i (take j mask))
    by (rewrite take_take; f_equal; lia).
  rewrite Hti. apply mask_count_take_lt.
  rewrite lookup_take_lt by exact Hij. exact Hi.
Qed.

End MaskFacts.

(** ** The steps of the generator *)

Section GeneratorSteps.

Variable g : LoadCurveGenerator.
Hypothesis g_hours : n_hours g = length (dates g).

Lemma pd_Series_ok vals idx nm :
  length vals = length idx ->
  pd_Series vals idx nm = Ok {| values := vals; index := idx; name := nm |}.
Proof. intros Hl. unfold pd_Series. rewrite Hl, Nat.eqb_refl. reflexivity. Qed.

Lemma normalize_synthetic_length c v : length (normalize_synthetic c v) = length c.
Proof.
  unfold normalize_synthetic. destruct (Rgt_dec _ _); [apply np_rescaled_length|reflexivity].
Qed.

Lemma normalize_real_length c v :
  length c = n_hours g -> length (normalize_real g c v) = n_hours g.
Proof.
  intros Hc. unfold normalize_real. destruct (Req_dec_T _ _).
  - apply np_zeros_length.
  - rewrite np_rescaled_length. exact Hc.
Qed.

Lemma tile_pattern_length p : p <> [] -> length (tile_pattern g p) = n_hours g.
Proof.
  intros Hp. unfold tile_pattern. rewrite length_take, np_tile_length.
  assert (0 < length p)%nat by (destruct p; [congruence|cbn; lia]).
  pose proof (tile_covers (n_hours g) (length p) ltac:(assumption)). lia.
Qed.

Lemma tile_pattern_lookup p i :
  p <> [] -> (i < n_hours g)%nat ->
  tile_pattern g p !! i = p !! (i mod length p)%nat.
Proof.
  intros Hp Hi. unfold tile_pattern.
  assert (0 < length p)%nat by (destruct p; [congruence|cbn; lia]).
  pose proof (tile_covers (n_hours g) (length p) ltac:(assumption)).
  rewrite lookup_take_lt by exact Hi. apply np_tile_lookup. lia.
Qed.

Lemma industry_shape_run w :
  exists curve,
    industry_shape g w
      = (Ok curve, emit (EvNormal 1.0 0.05 (n_hours g)) (advance (n_hours g) w))
    /\ length curve = n_hours g
    /\ forall i t, dates g !! i = Some t ->
         curve !! i = Some (if existsb (Z.eqb (dayofweek t)) (weekend_days w)
                            then ((1.0 + 0.05 * rng w i) * 0.85)%R
                            else (1.0 + 0.05 * rng w i)%R).
Proof.
  unfold industry_shape, mbind, M_bind, np_random_normal, SETTINGS_WEEKEND_DAYS, lift.
  cbn [weekend_days emit advance].
  rewrite mask_scale_ok
    by (unfold isin; rewrite !length_map, length_seq; symmetry; exact g_hours).
  eexists. split; [reflexivity|]. split.
  - unfold isin. rewrite length_zip_with, !length_map, length_seq. lia.
  - intros i t Ht. pose proof (lookup_lt_Some _ _ _ Ht) as Hi. rewrite <- g_hours in Hi.
    unfold isin. rewrite lookup_zip_with, !list_lookup_fmap, Ht.
    rewrite lookup_seq_lt by exact Hi. reflexivity.
Qed.

Lemma is_working_mask_length : length (is_working_mask g) = n_hours g.
Proof.
  unfold is_working_mask, mask_and, mask_ge, mask_le, mask_lt.
  rewrite !length_zip_with, !length_map. lia.
Qed.

Lemma is_working_mask_lookup i t :
  dates g !! i = Some t ->
  is_working_mask g !! i
    = Some ((8 <=? hour t) && (hour t <=? 18) && (dayofweek t <? 5)).
Proof.
  intros Ht. unfold is_working_mask.
  apply mask_and_lookup; [apply mask_and_lookup|];
    unfold mask_ge, mask_le, mask_lt; rewrite !list_lookup_fmap, Ht; reflexivity.
Qed.

Lemma daylight_mask_length : length (daylight_mask g) = n_hours g.
Proof.
  unfold daylight_mask, mask_and, mask_ge, mask_le.
  rewrite !length_zip_with, !length_map. lia.
Qed.

Lemma daylight_mask_lookup i t :
  dates g !! i = Some t ->
  daylight_mask g !! i = Some ((6 <=? hour t) && (hour t <=? 20)).
Proof.
  intros Ht. unfold daylight_mask.
  apply mask_and_lookup; unfold mask_ge, mask_le; rewrite !list_lookup_fmap, Ht; reflexivity.
Qed.

Lemma office_shape_run w :
  let working := is_working_mask g in
  exists curve,
    office_shape g (np_zeros (n_hours g)) w
      = (Ok curve, emit (EvNormal 1.0 0.1 (mask_count working))
                        (advance (mask_count working) w))
    /\ length curve = n_hours g
    /\ forall i t, dates g !! i = Some t ->
         curve !! i
           = Some (if (8 <=? hour t) && (hour t <=? 18) && (dayofweek t <? 5)
                   then (1.0 + 0.1 * rng w (mask_count (take i working)))%R
                   else 0.1%R).
Proof.
  intros working.
  unfold office_shape, mbind, M_bind, np_random_normal, lift. fold working.
  assert (Hlw : length working = length (np_zeros (n_hours g)))
    by (unfold working; rewrite is_working_mask_length, np_zeros_length; reflexivity).
  assert (Hdraws : forall z : nat -> R,
            length (map (fun k => (1.0 + 0.1 * z k)%R) (seq 0 (mask_count working)))
            = mask_count working)
    by (intros z; rewrite length_map, length_seq; reflexivity).
  rewrite mask_assign_ok by (try exact Hlw; apply Hdraws).
  rewrite mask_fill_ok
    by (unfold mask_not; rewrite length_map, mask_put_length; exact Hlw).
  eexists. split; [reflexivity|]. split.
  - unfold mask_not. rewrite length_zip_with, length_map, mask_put_length, <- Hlw.
    unfold working. rewrite is_working_mask_length. lia.
  - intros i t Ht. pose proof (is_working_mask_lookup i t Ht) as Hm. fold working in Hm.
    pose proof (lookup_lt_Some _ _ _ Ht) as Hi. rewrite <- g_hours in Hi.
    unfold mask_not. rewrite lookup_zip_with, list_lookup_fmap, Hm.
    rewrite mask_put_lookup by (try exact Hlw; apply Hdraws). rewrite Hm.
    destruct ((8 <=? hour t) && (hour t <=? 18) && (dayofweek t <? 5)) eqn:Hw.
    + pose proof (mask_count_take_lt _ _ Hm) as Hr.
      rewrite list_lookup_fmap, lookup_seq_lt by exact Hr. reflexivity.
    + rewrite np_zeros_lookup by exact Hi. reflexivity.
Qed.

Lemma solar_shape_run w :
  exists curve,
    solar_shape g (np_zeros (n_hours g)) w = (Ok curve, w)
    /\ length curve = n_hours g
    /\ forall i t, dates g !! i = Some t ->
         curve !! i
           = Some (Rmax (if (6 <=? hour t) && (hour t <=? 20)
                         then sin (IZR (hour t - 6) * PI / 14)
                         else 0) 0).
Proof.
  unfold solar_shape, mbind, M_bind, mret, M_ret, lift, np_sin.
  assert (Hlm : length (daylight_mask g) = length (np_zeros (n_hours g)))
    by (rewrite daylight_mask_length, np_zeros_length; reflexivity).
  rewrite map_map.
  rewrite mask_assign_ok;
    [| exact Hlm
     | rewrite length_map; apply mask_select_length;
       rewrite length_map, daylight_mask_length; symmetry; exact g_hours ].
  eexists. split; [reflexivity|]. split.
  - unfold np_maximum. rewrite length_map, mask_put_length. apply np_zeros_length.
  - intros i t Ht. pose proof (daylight_mask_lookup i t Ht) as Hm.
    pose proof (lookup_lt_Some _ _ _ Ht) as Hi. rewrite <- g_hours in Hi.
    unfold np_maximum. rewrite list_lookup_fmap.
    assert (Hh : map hour (dates g) !! i = Some (hour t))
      by (rewrite list_lookup_fmap, Ht; reflexivity).
    rewrite (mask_put_select_lookup _ _ _ _ i 0%R (hour t) _
               (np_zeros_lookup _ _ Hi) Hh Hm).
    cbn [fmap option_fmap option_map].
    destruct ((6 <=? hour t) && (hour t <=? 20)); reflexivity.
Qed.

(** The synthetic generator, once the shape is known. *)
Lemma synthetic_profile_run pt v w curve w' :
  synthetic_shape g pt (emit (EvPrint "Using synthetic load generator (fallback).") w)
    = (Ok curve, w') ->
  length curve = n_hours g ->
  synthetic_profile g pt v w
    = (Ok {| values := normalize_synthetic curve v; index := dates g;
             name := "Synthetic Load" |}, w').
Proof.
  intros Hs Hl. unfold synthetic_profile, mbind, M_bind, print, lift.
  rewrite Hs. rewrite pd_Series_ok; [reflexivity|].
  rewrite normalize_synthetic_length, Hl. exact g_hours.
Qed.

(** The real-data branch always builds its series. *)
Lemma real_data_profile_run p v w :
  p <> [] ->
  real_data_profile g p v w
    = (Ok {| values := normalize_real g (tile_pattern g p) v; index := dates g;
             name := "Real Load (MWh)" |},
       emit (EvPrint "Load profile generated using real Elia data.") w).
Proof.
  intros Hp. unfold real_data_profile, mbind, M_bind, print, lift.
  rewrite pd_Series_ok; [reflexivity|].
  rewrite normalize_real_length by (apply tile_pattern_length; exact Hp). exact g_hours.
Qed.

End GeneratorSteps.

(** ** Runs of [generate_profile] *)

Section GeneratorRuns.

Variable g : LoadCurveGenerator.
Hypothesis g_hours : n_hours g = length (dates g).

(** Whatever the archetype string, the shaping stage delivers a curve of
    calendar length, and what it adds to the log are draws only. *)
Lemma synthetic_shape_total pt w :
  exists curve w' evs,
    synthetic_shape g pt w = (Ok curve, w') /\ length curve = n_hours g
    /\ log w' = (log w ++ evs)%list
    /\ (forall d, ~ In (EvFetch d) evs).
Proof.
  unfold synthetic_shape.
  destruct (String.eqb pt "INDUSTRY_24_7").
  { destruct (industry_shape_run g g_hours w) as (c & Hr & Hl & _).
    exists c. eexists. exists [EvNormal 1.0 0.05 (n_hours g)].
    repeat split; [exact Hr|exact Hl|reflexivity|]. intros d [Hd|[]]. discriminate Hd. }
  destruct (String.eqb pt "OFFICE_BUILDING").
  { destruct (office_shape_run g g_hours w) as (c & Hr & Hl & _).
    exists c. eexists. exists [EvNormal 1.0 0.1 (mask_count (is_working_mask g))].
    repeat split; [exact Hr|exact Hl|reflexivity|]. intros d [Hd|[]]. discriminate Hd. }
  destruct (String.eqb pt "SOLAR_PPA").
  { destruct (solar_shape_run g g_hours w) as (c & Hr & Hl & _).
    exists c, w, []. repeat split; [exact Hr|exact Hl|symmetry; apply app_nil_r|].
    intros d []. }
  exists (np_zeros (n_hours g)), w, [].
  repeat split; [apply np_zeros_length|symmetry; apply app_nil_r|]. intros d [].
Qed.

(** The log does not influence the curve the shaping stage computes. *)
Lemma synthetic_shape_emit pt e w :
  fst (synthetic_shape g pt (emit e w)) = fst (synthetic_shape g pt w).
Proof.
  unfold synthetic_shape.
  destruct (String.eqb pt "INDUSTRY_24_7"); [reflexivity|].
  destruct (String.eqb pt "OFFICE_BUILDING").
  { unfold office_shape, mbind, M_bind, np_random_normal, lift.
    cbn [rng emit advance]. destruct (mask_assign _ _ _); reflexivity. }
  destruct (String.eqb pt "SOLAR_PPA"); [|reflexivity].
  unfold solar_shape, mbind, M_bind, lift. destruct (mask_assign _ _ _); reflexivity.
Qed.

Lemma synthetic_profile_total pt v w :
  exists curve w' evs,
    synthetic_shape g pt (emit (EvPrint "Using synthetic load generator (fallback).") w)
      = (Ok curve, w')
    /\ length curve = n_hours g
    /\ outcome (synthetic_shape g pt) w = Ok curve
    /\ synthetic_profile g pt v w
       = (Ok {| values := normalize_synthetic curve v; index := dates g;
                name := "Synthetic Load" |}, w')
    /\ log w'
       = (log w ++ EvPrint "Using synthetic load generator (fallback)." :: evs)%list
    /\ (forall d, ~ In (EvFetch d) evs).
Proof.
  destruct (synthetic_shape_total pt
              (emit (EvPrint "Using synthetic load generator (fallback).") w))
    as (c & w' & evs & Hr & Hl & Hlog & Hev).
  exists c, w', evs. split; [exact Hr|]. split; [exact Hl|]. split; [|split; [|split]].
  - unfold outcome.
    rewrite <- (synthetic_shape_emit pt (EvPrint "Using synthetic load generator (fallback).") w), Hr.
    reflexivity.
  - apply synthetic_profile_run; assumption.
  - rewrite Hlog. cbn [log emit]. rewrite <- app_assoc. reflexivity.
  - exact Hev.
Qed.

(** The three ways a call can go: the connector faults (industrial archetype
    only), the real curve is used, or the synthetic generator runs. *)
Lemma generate_profile_run pt v w :
  (pt = "INDUSTRY_24_7" /\ exists e,
      elia_response w 14 = Raise e
      /\ generate_profile g pt v w
         = (Raise e, emit (EvFetch 14)
                       (emit (EvPrint "Attempting to retrieve real Elia load profile...") w)))
  \/ (pt = "INDUSTRY_24_7" /\ exists p,
      elia_response w 14 = Ok p /\ p <> []
      /\ generate_profile g pt v w
         = real_data_profile g p v
             (emit (EvFetch 14)
                (emit (EvPrint "Attempting to retrieve real Elia load profile...") w)))
  \/ (pt = "INDUSTRY_24_7" /\ elia_response w 14 = Ok []
      /\ generate_profile g pt v w
         = synthetic_profile g pt v
             (emit (EvFetch 14)
                (emit (EvPrint "Attempting to retrieve real Elia load profile...") w)))
  \/ (pt <> "INDUSTRY_24_7"
      /\ generate_profile g pt v w = synthetic_profile g pt v w).
Proof.
  unfold generate_profile. destruct (String.eqb_spec pt "INDUSTRY_24_7") as [Hpt|Hpt].
  - unfold mbind, M_bind, print, fetch_real_load_curve.
    cbn [elia_response emit].
    destruct (elia_response w 14) as [[|x p]|e] eqn:He.
    + right. right. left. auto.
    + right. left. split; [exact Hpt|]. exists (x :: p). repeat split; congruence.
    + left. split; [exact Hpt|]. exists e. auto.
  - right. right. right. auto.
Qed.

Lemma generate_profile_other pt v w :
  pt <> "INDUSTRY_24_7" -> generate_profile g pt v w = synthetic_profile g pt v w.
Proof.
  intros Hpt. unfold generate_profile. apply String.eqb_neq in Hpt. rewrite Hpt. reflexivity.
Qed.

End GeneratorRuns.

(** ** Length and calendar of the returned series *)

(** The years for which the constructor builds the calendar of the year. *)
Lemma of_year_readable year :
  1678 <= year <= 2261 -> LoadCurveGenerator_of_year year = Some (init year).
Proof.
  intros Hy. unfold LoadCurveGenerator_of_year.
  destruct (Z.leb_spec 1678 year); [|lia].
  destruct (Z.leb_spec year 2261); [|lia]. reflexivity.
Qed.

(** Whatever the calendar, [n_hours] is its length. *)
Lemma of_year_hours year g :
  LoadCurveGenerator_of_year year = Some g -> n_hours g = length (dates g).
Proof.
  unfold LoadCurveGenerator_of_year.
  destruct ((1678 <=? year) && (year <=? 2261)); [intros [= <-]; reflexivity|].
  destruct (year =? 1); [|discriminate].
  generalize (date_range (timestamp 2001 1 1 0) (timestamp 2031 1 12 23)).
  intros d [= <-]. reflexivity.
Qed.

(** A call that meets no connector fault returns a series over the calendar
    of the generator, with one value per entry. *)
Lemma generate_profile_over_calendar g pt v w :
  n_hours g = length (dates g) ->
  (pt = "INDUSTRY_24_7" -> exists data, elia_response w 14 = Ok data) ->
  exists s,
    outcome (generate_profile g pt v) w = Ok s
    /\ index s = dates g /\ length (values s) = n_hours g.
Proof.
  intros Hg Hfetch.
  assert (Hsynth : forall w0, exists s,
            outcome (synthetic_profile g pt v) w0 = Ok s
            /\ index s = dates g /\ length (values s) = n_hours g).
  { intros w0. destruct (synthetic_profile_total g Hg pt v w0)
      as (c & w' & evs & _ & Hl & _ & Hrun & _).
    eexists. unfold outcome. rewrite Hrun. cbn [fst].
    split; [reflexivity|]. cbn [index values]. split; [reflexivity|].
    rewrite normalize_synthetic_length. exact Hl. }
  destruct (generate_profile_run g pt v w)
    as [(Hpt & e & He & _)|[(Hpt & p & He & Hp & Hrun)|[(Hpt & He & Hrun)|(Hpt & Hrun)]]].
  - destruct (Hfetch Hpt) as (data & Hd). congruence.
  - unfold outcome. rewrite Hrun, (real_data_profile_run g Hg) by exact Hp.
    eexists. cbn [fst]. split; [reflexivity|]. cbn [index values].
    split; [reflexivity|].
    apply normalize_real_length. apply tile_pattern_length; assumption.
  - unfold outcome in *. rewrite Hrun. apply Hsynth.
  - unfold outcome in *. rewrite Hrun. apply Hsynth.
Qed.

(** C2, as stated, fails.  The constructor hands pandas the year as text.
    For target year 1, which is no leap year, the texts are read as January
    1st 2001 and January 12th 2031: the calendar of the generator has 263256
    entries, and so has the solar series the call returns, where the claim
    promises 8760 values. *)
Lemma year_one_series_has_263256_values :
  exists g s,
    LoadCurveGenerator_of_year 1 = Some g
    /\ outcome (generate_profile g "SOLAR_PPA" 5000) (still_world 0 (Ok [])) = Ok s
    /\ length (values s) = length (dates g)
    /\ Z.of_nat (length (values s)) = 263256
    /\ is_leap 1 = false.
Proof.
  assert (Hlen : Z.of_nat (length (date_range (timestamp 2001 1 1 0)
                                              (timestamp 2031 1 12 23))) = 263256).
  { rewrite date_range_length, Z2Nat.id; [|vm_compute; discriminate].
    vm_compute. reflexivity. }
  change (LoadCurveGenerator_of_year 1)
    with (Some {| year := 1;
                  dates := date_range (timestamp 2001 1 1 0) (timestamp 2031 1 12 23);
                  n_hours := length (date_range (timestamp 2001 1 1 0)
                                                (timestamp 2031 1 12 23)) |}).
  revert Hlen.
  generalize (date_range (timestamp 2001 1 1 0) (timestamp 2031 1 12 23)).
  intros d Hlen.
  set (g := {| year := 1; dates := d; n_hours := length d |}).
  assert (Hg : n_hours g = length (dates g)) by reflexivity.
  destruct (generate_profile_over_calendar g "SOLAR_PPA" 5000 (still_world 0 (Ok [])) Hg)
    as (s & Hs & _ & Hl); [discriminate|].
  exists g, s. split; [reflexivity|]. split; [exact Hs|].
  split; [rewrite Hl; exact Hg|]. split; [|reflexivity].
  rewrite Hl. exact Hlen.
Qed.

(** C2, amended.  For every archetype string (in particular INDUSTRY_24_7,
    OFFICE_BUILDING and SOLAR_PPA) and every target year from 1678 to 2261
    (the years whose text pandas reads as an ISO date of that year, within
    the bounds of its nanosecond timestamps), provided the Elia connector
    does not fault when it is consulted, the generator is built over the
    calendar of the year (every hour from January 1st 00:00 to December 31st
    23:00) and [generate_profile] returns a series indexed by that calendar,
    with one value per entry: 8760 values for a non-leap year and 8784 for a
    leap year. *)
Theorem generate_profile_calendar_length year pt v w :
  1678 <= year <= 2261 ->
  (pt = "INDUSTRY_24_7" -> exists data, elia_response w 14 = Ok data) ->
  exists g s,
    LoadCurveGenerator_of_year year = Some g
    /\ dates g = date_range (timestamp year 1 1 0) (timestamp year 12 31 23)
    /\ outcome (generate_profile g pt v) w = Ok s
    /\ index s = dates g
    /\ length (values s) = length (index s)
    /\ Z.of_nat (length (values s)) = (if is_leap year then 8784 else 8760).
Proof.
  intros Hy Hfetch. exists (init year).
  assert (Hg : n_hours (init year) = length (dates (init year))) by reflexivity.
  destruct (generate_profile_over_calendar (init year) pt v w Hg Hfetch)
    as (s & Hs & Hi & Hl).
  exists s. split; [apply of_year_readable; exact Hy|].
  split; [reflexivity|]. split; [exact Hs|]. split; [exact Hi|]. split.
  - rewrite Hl, Hi. exact Hg.
  - rewrite Hl. apply init_n_hours.
Qed.

Lemma generate_profile_calendar_length_witness :
  exists g s,
    LoadCurveGenerator_of_year 2026 = Some g
    /\ dates g = date_range (timestamp 2026 1 1 0) (timestamp 2026 12 31 23)
    /\ outcome (generate_profile g "INDUSTRY_24_7" 15000)
               (still_world 0 (Ok [1%R])) = Ok s
    /\ index s = dates g
    /\ length (values s) = length (index s)
    /\ Z.of_nat (length (values s)) = 8760.
Proof.
  apply (generate_profile_calendar_length 2026 "INDUSTRY_24_7" 15000
           (still_world 0 (Ok [1%R]))).
  - lia.
  - intros _. exists [1%R]. reflexivity.
Defined.

(** ** Unrecognised archetype *)

(** C6. For every archetype string that is none of INDUSTRY_24_7,
    OFFICE_BUILDING and SOLAR_PPA, [generate_profile] raises nothing: the
    curve leaves the shaping stage as the zero array it was initialised to,
    its total is zero, the normalisation returns it unchanged, and the call
    returns the all-zero series of calendar length, having only printed the
    fallback line (no fetch, no draw). *)
Theorem unknown_archetype_zero_series year pt v w :
  pt <> "INDUSTRY_24_7" -> pt <> "OFFICE_BUILDING" -> pt <> "SOLAR_PPA" ->
  let g := init year in
  let w1 := emit (EvPrint "Using synthetic load generator (fallback).") w in
  synthetic_shape g pt w1 = (Ok (np_zeros (n_hours g)), w1)
  /\ np_sum (np_zeros (n_hours g)) = 0%R
  /\ normalize_synthetic (np_zeros (n_hours g)) v = np_zeros (n_hours g)
  /\ generate_profile g pt v w
     = (Ok {| values := np_zeros (n_hours g); index := dates g;
              name := "Synthetic Load" |}, w1)
  /\ length (np_zeros (n_hours g)) = length (dates g).
Proof.
  intros Hi Ho Hs g w1.
  apply String.eqb_neq in Hi, Ho, Hs.
  assert (Hshape : synthetic_shape g pt w1 = (Ok (np_zeros (n_hours g)), w1))
    by (unfold synthetic_shape; rewrite Hi, Ho, Hs; reflexivity).
  assert (Hnorm : normalize_synthetic (np_zeros (n_hours g)) v = np_zeros (n_hours g)).
  { unfold normalize_synthetic. rewrite np_sum_zeros.
    destruct (Rgt_dec 0 0) as [Hgt|_]; [lra|reflexivity]. }
  split; [exact Hshape|]. split; [apply np_sum_zeros|]. split; [exact Hnorm|]. split.
  - unfold generate_profile. rewrite Hi.
    rewrite (synthetic_profile_run g eq_refl pt v w _ _ Hshape (np_zeros_length _)).
    rewrite Hnorm. reflexivity.
  - apply np_zeros_length.
Qed.

Lemma unknown_archetype_zero_series_witness :
  generate_profile (init 2026) "WIND_PPA" 5000 (still_world 0 (Raise EliaFault))
  = (Ok {| values := np_zeros (n_hours (init 2026)); index := dates (init 2026);
           name := "Synthetic Load" |},
     emit (EvPrint "Using synthetic load generator (fallback).")
          (still_world 0 (Raise EliaFault))).
Proof.
  apply (unknown_archetype_zero_series 2026 "WIND_PPA" 5000
           (still_world 0 (Raise EliaFault))); discriminate.
Defined.

(** ** Events of a call *)

Lemma events_of_app {A} (m : M A) w l :
  log (snd (m w)) = (log w ++ l)%list -> events_of m w = l.
Proof. intros Hl. unfold events_of. rewrite Hl. apply drop_app_length. Qed.

(** The curve the solar branch computes depends on the calendar only. *)
Lemma solar_shape_pure g base w w' :
  fst (solar_shape g base w) = fst (solar_shape g base w').
Proof.
  unfold solar_shape, mbind, M_bind, lift. destruct (mask_assign _ _ _); reflexivity.
Qed.

(** The industrial archetype with an empty answer of the connector: the call
    goes through the synthetic generator. *)
Lemma industry_fallback_run g v w :
  n_hours g = length (dates g) ->
  elia_response w 14 = Ok [] ->
  exists curve,
    generate_profile g "INDUSTRY_24_7" v w
      = (Ok {| values := normalize_synthetic curve v; index := dates g;
               name := "Synthetic Load" |},
         emit (EvNormal 1.0 0.05 (n_hours g))
           (advance (n_hours g)
              (emit (EvPrint "Using synthetic load generator (fallback).")
                 (emit (EvFetch 14)
                    (emit (EvPrint "Attempting to retrieve real Elia load profile...") w)))))
    /\ outcome (synthetic_shape g "INDUSTRY_24_7") w = Ok curve
    /\ length curve = n_hours g
    /\ forall i t, dates g !! i = Some t ->
         curve !! i = Some (if existsb (Z.eqb (dayofweek t)) (weekend_days w)
                            then ((1.0 + 0.05 * rng w i) * 0.85)%R
                            else (1.0 + 0.05 * rng w i)%R).
Proof.
  intros Hg He.
  destruct (generate_profile_run g "INDUSTRY_24_7" v w)
    as [(_ & e & He' & _)|[(_ & p & He' & Hp & _)|[(_ & _ & Hrun)|(Hpt & _)]]];
    try congruence.
  set (w0 := emit (EvFetch 14)
               (emit (EvPrint "Attempting to retrieve real Elia load profile...") w))
    in *.
  set (w1 := emit (EvPrint "Using synthetic load generator (fallback).") w0).
  destruct (industry_shape_run g Hg w1) as (c & Hc & Hl & Hlook).
  assert (Hshape : synthetic_shape g "INDUSTRY_24_7" w1
                   = (Ok c, emit (EvNormal 1.0 0.05 (n_hours g))
                              (advance (n_hours g) w1))) by exact Hc.
  pose proof (synthetic_profile_run g Hg "INDUSTRY_24_7" v w0 _ _ Hshape Hl) as Hsp.
  rewrite Hsp in Hrun. exists c. split; [exact Hrun|]. split; [|split; [exact Hl|exact Hlook]].
  pose proof (synthetic_shape_emit g "INDUSTRY_24_7"
                (EvPrint "Using synthetic load generator (fallback).") w0) as H1.
  pose proof (synthetic_shape_emit g "INDUSTRY_24_7" (EvFetch 14)
                (emit (EvPrint "Attempting to retrieve real Elia load profile...") w)) as H2.
  pose proof (synthetic_shape_emit g "INDUSTRY_24_7"
                (EvPrint "Attempting to retrieve real Elia load profile...") w) as H3.
  fold w0 in H2. fold w1 in H1. unfold outcome.
  rewrite <- H3, <- H2, <- H1, Hshape. reflexivity.
Qed.

(** ** The solar archetype is deterministic *)

(** C10. For archetype SOLAR_PPA, two calls on generators built for the same
    year, with the same annual volume, return the same series whatever the
    state of the random generator, the answer the connector would give and
    the settings are: the call returns a series, its only event is the
    fallback line (no fetch, no draw), and it leaves the random state as it
    found it. *)
Theorem solar_profile_deterministic year v w1 w2 :
  let run := generate_profile (init year) "SOLAR_PPA" v in
  outcome run w1 = outcome run w2
  /\ (exists s, outcome run w1 = Ok s)
  /\ events_of run w1 = [EvPrint "Using synthetic load generator (fallback)."]
  /\ rng (world_after run w1) = rng w1.
Proof.
  intros run. set (g := init year).
  assert (Hg : n_hours g = length (dates g)) by reflexivity.
  assert (Hrun : forall w, exists curve,
            fst (solar_shape g (np_zeros (n_hours g)) w) = Ok curve
            /\ run w = (Ok {| values := normalize_synthetic curve v; index := dates g;
                              name := "Synthetic Load" |},
                        emit (EvPrint "Using synthetic load generator (fallback).") w)).
  { intros w.
    destruct (solar_shape_run g Hg
                (emit (EvPrint "Using synthetic load generator (fallback).") w))
      as (c & Hc & Hl & _).
    exists c. split.
    - rewrite (solar_shape_pure g _ w
                 (emit (EvPrint "Using synthetic load generator (fallback).") w)), Hc.
      reflexivity.
    - unfold run. rewrite (generate_profile_other g "SOLAR_PPA") by discriminate.
      apply (synthetic_profile_run g Hg); [exact Hc|exact Hl]. }
  destruct (Hrun w1) as (c1 & Hc1 & Hr1). destruct (Hrun w2) as (c2 & Hc2 & Hr2).
  assert (c1 = c2).
  { rewrite (solar_shape_pure g _ w1 w2), Hc2 in Hc1. congruence. }
  subst c2. unfold outcome, world_after.
  split; [rewrite Hr1, Hr2; reflexivity|].
  split; [rewrite Hr1; eexists; reflexivity|].
  split; [|rewrite Hr1; reflexivity].
  apply events_of_app. rewrite Hr1. reflexivity.
Qed.

(** ** When the connector is consulted, and the fallback on an empty answer *)



(** ** The synthetic industrial shape *)

(** C8. On the synthetic INDUSTRY_24_7 path (the connector answered with an
    empty curve), the curve handed to the normalisation holds, for hour [i] of
    the calendar, the [i]-th variate of the random generator turned into a
    Gaussian(1.0, 0.05) draw, [1.0 + 0.05 * z_i]; that draw is multiplied by
    0.85 when the weekday of the hour is in the configured weekend set and is
    kept as it is otherwise (the call draws once, one variate per hour of the
    calendar).  Nothing clamps it: a negative draw gives a negative value. *)
Theorem synthetic_industry_shape year v w :
  elia_response w 14 = Ok [] ->
  let g := init year in
  exists curve s,
    outcome (generate_profile g "INDUSTRY_24_7" v) w = Ok s
    /\ outcome (synthetic_shape g "INDUSTRY_24_7") w = Ok curve
    /\ values s = normalize_synthetic curve v
    /\ In (EvNormal 1.0 0.05 (n_hours g))
          (events_of (generate_profile g "INDUSTRY_24_7" v) w)
    /\ length curve = length (dates g)
    /\ forall i t, dates g !! i = Some t ->
         let draw := (1.0 + 0.05 * rng w i)%R in
         exists x, curve !! i = Some x
           /\ (In (dayofweek t) (weekend_days w) -> x = (draw * 0.85)%R)
           /\ (~ In (dayofweek t) (weekend_days w) -> x = draw)
           /\ ((draw < 0)%R -> (x < 0)%R).
Proof.
  intros He g.
  assert (Hg : n_hours g = length (dates g)) by reflexivity.
  destruct (industry_fallback_run g v w Hg He) as (c & Hrun & Hc & Hl & Hlook).
  exists c. eexists. unfold outcome at 1. rewrite Hrun. cbn [fst values].
  split; [reflexivity|]. split; [exact Hc|]. split; [reflexivity|]. split.
  { erewrite events_of_app;
      [|rewrite Hrun; cbn [snd log emit advance]; rewrite <- !app_assoc; reflexivity].
    cbn [app]. right. right. right. left. reflexivity. }
  split; [rewrite Hl; exact Hg|].
  intros i t Ht. rewrite (Hlook i t Ht). set (draw := (1.0 + 0.05 * rng w i)%R).
  destruct (existsb (Z.eqb (dayofweek t)) (weekend_days w)) eqn:Hwe.
  - apply existsb_exists in Hwe as (d & Hin & Hd). apply Z.eqb_eq in Hd. subst d.
    eexists. split; [reflexivity|]. split; [reflexivity|]. split; [contradiction|]. lra.
  - eexists. split; [reflexivity|]. split; [|split; [reflexivity|tauto]].
    intros Hin. assert (existsb (Z.eqb (dayofweek t)) (weekend_days w) = true).
    { apply existsb_exists. exists (dayofweek t). split; [exact Hin|apply Z.eqb_refl]. }
    congruence.
Qed.

Lemma synthetic_industry_shape_witness :
  exists curve s,
    outcome (generate_profile (init 2026) "INDUSTRY_24_7" 15000) (still_world (-30) (Ok [])) = Ok s
    /\ outcome (synthetic_shape (init 2026) "INDUSTRY_24_7") (still_world (-30) (Ok [])) = Ok curve
    /\ values s = normalize_synthetic curve 15000
    /\ In (EvNormal 1.0 0.05 (n_hours (init 2026)))
          (events_of (generate_profile (init 2026) "INDUSTRY_24_7" 15000)
                     (still_world (-30) (Ok [])))
    /\ length curve = length (dates (init 2026))
    /\ forall i t, dates (init 2026) !! i = Some t ->
         let draw := (1.0 + 0.05 * rng (still_world (-30) (Ok [])) i)%R in
         exists x, curve !! i = Some x
           /\ (In (dayofweek t) (weekend_days (still_world (-30) (Ok []))) -> x = (draw * 0.85)%R)
           /\ (~ In (dayofweek t) (weekend_days (still_world (-30) (Ok []))) -> x = draw)
           /\ ((draw < 0)%R -> (x < 0)%R).
Proof.
  apply (synthetic_industry_shape 2026 15000 (still_world (-30) (Ok []))).
  reflexivity.
Defined.

(** ** The office shape *)

(** C5. For archetype OFFICE_BUILDING, an hour of the calendar is a working
    hour exactly when its hour of day is between 8 and 18 inclusive and its
    weekday index is below 5.  In the curve handed to the normalisation, a
    working hour holds a Gaussian(1.0, 0.1) draw, [1.0 + 0.1 * z_k], [k] being
    the number of working hours before it, so that two working hours never
    share a variate (the call draws once, as many variates as there are
    working hours); every other hour holds 0.1.  Hence all non-working hours
    have the same value in the returned series. *)
Theorem office_shape_working_hours year v w :
  let g := init year in
  let working := is_working_mask g in
  exists curve s,
    outcome (generate_profile g "OFFICE_BUILDING" v) w = Ok s
    /\ outcome (synthetic_shape g "OFFICE_BUILDING") w = Ok curve
    /\ values s = normalize_synthetic curve v
    /\ events_of (generate_profile g "OFFICE_BUILDING" v) w
       = [EvPrint "Using synthetic load generator (fallback).";
          EvNormal 1.0 0.1 (mask_count working)]
    /\ (forall i t, dates g !! i = Some t ->
          (working !! i = Some true <-> (8 <= hour t <= 18 /\ dayofweek t < 5))
          /\ (working !! i = Some false <-> ~ (8 <= hour t <= 18 /\ dayofweek t < 5)))
    /\ (forall i, working !! i = Some true ->
          curve !! i = Some (1.0 + 0.1 * rng w (mask_count (take i working)))%R)
    /\ (forall i j, working !! i = Some true -> working !! j = Some true -> i <> j ->
          mask_count (take i working) <> mask_count (take j working))
    /\ (forall i, working !! i = Some false -> curve !! i = Some 0.1%R)
    /\ (forall i j, working !! i = Some false -> working !! j = Some false ->
          exists y, values s !! i = Some y /\ values s !! j = Some y).
Proof.
  intros g working.
  assert (Hg : n_hours g = length (dates g)) by reflexivity.
  set (w1 := emit (EvPrint "Using synthetic load generator (fallback).") w).
  destruct (office_shape_run g Hg w1) as (c & Hc & Hl & Hlook). fold working in Hc, Hlook.
  assert (Hshape : synthetic_shape g "OFFICE_BUILDING" w1
                   = (Ok c, emit (EvNormal 1.0 0.1 (mask_count working))
                              (advance (mask_count working) w1))) by exact Hc.
  pose proof (synthetic_profile_run g Hg "OFFICE_BUILDING" v w _ _ Hshape Hl) as Hrun.
  rewrite <- (generate_profile_other g "OFFICE_BUILDING") in Hrun by discriminate.
  assert (Hmask : forall i t, dates g !! i = Some t ->
            working !! i = Some ((8 <=? hour t) && (hour t <=? 18) && (dayofweek t <? 5)))
    by (intros i t Ht; apply is_working_mask_lookup; exact Ht).
  assert (Hdate : forall i b, working !! i = Some b -> exists t, dates g !! i = Some t).
  { intros i b Hb. apply lookup_lt_Some in Hb. unfold working in Hb.
    rewrite is_working_mask_length, Hg in Hb by exact Hg. apply lookup_lt_is_Some_2 in Hb.
    destruct Hb as (t & Ht). eauto. }
  assert (Hwork : forall i, working !! i = Some true ->
            c !! i = Some (1.0 + 0.1 * rng w (mask_count (take i working)))%R).
  { intros i Hi. destruct (Hdate i _ Hi) as (t & Ht).
    rewrite (Hlook i t Ht). pose proof (Hmask i t Ht) as Hm. rewrite Hi in Hm.
    injection Hm as <-. reflexivity. }
  assert (Hidle : forall i, working !! i = Some false -> c !! i = Some 0.1%R).
  { intros i Hi. destruct (Hdate i _ Hi) as (t & Ht).
    rewrite (Hlook i t Ht). pose proof (Hmask i t Ht) as Hm. rewrite Hi in Hm.
    injection Hm as <-. reflexivity. }
  exists c. eexists. unfold outcome at 1. rewrite Hrun. cbn [fst values].
  split; [reflexivity|]. split.
  { unfold outcome. rewrite <- (synthetic_shape_emit g "OFFICE_BUILDING"
      (EvPrint "Using synthetic load generator (fallback).") w). fold w1.
    rewrite Hshape. reflexivity. }
  split; [reflexivity|]. split.
  { apply events_of_app. rewrite Hrun. cbn [snd log emit advance w1].
    rewrite <- !app_assoc. reflexivity. }
  split; [|split; [exact Hwork|split; [|split; [exact Hidle|]]]].
  - intros i t Ht. rewrite (Hmask i t Ht).
    destruct (Z.leb_spec 8 (hour t)), (Z.leb_spec (hour t) 18), (Z.ltb_spec (dayofweek t) 5);
      cbn [andb]; split; split; intros H'; try discriminate H'; try reflexivity; lia.
  - intros i j Hi Hj Hne.
    destruct (Nat.lt_total i j) as [Hlt|[Heq|Hlt]]; [|contradiction|].
    + pose proof (mask_rank_strict working i j Hi Hlt). lia.
    + pose proof (mask_rank_strict working j i Hj Hlt). lia.
  - intros i j Hi Hj. apply Hidle in Hi, Hj. unfold normalize_synthetic.
    destruct (Rgt_dec (np_sum c) 0).
    + eexists. split; apply np_rescaled_lookup; eassumption.
    + eauto.
Qed.

(** ** The solar shape *)

(** The sine of the solar branch is never negative inside the daylight
    window, so the clamp leaves it as it is. *)
Lemma daylight_sine_nonneg h :
  6 <= h <= 20 -> (0 <= sin (IZR (h - 6) * PI / 14))%R.
Proof.
  intros Hh. pose proof PI_RGT_0 as Hpi.
  assert (0 <= IZR (h - 6) <= 14)%R as [H0 H14]
    by (split; [apply (IZR_le 0)|apply (IZR_le _ 14)]; lia).
  apply sin_ge_0.
  - apply Rmult_le_pos; [|lra]. apply Rmult_le_pos; lra.
  - replace PI with (14 * PI / 14)%R at 2 by (field; lra).
    apply Rmult_le_compat_r; [lra|]. apply Rmult_le_compat_r; lra.
Qed.

(** C4. For archetype SOLAR_PPA with a positive annual volume, the call
    returns a series whose value is non-negative at every hour of the calendar
    and is exactly zero at every hour whose hour of day is before 6 or after
    20; in the curve handed to the normalisation, an hour whose hour of day
    [h] is between 6 and 20 holds [sin((h - 6) * pi / 14)] clamped to
    non-negative (which is that sine itself). *)
Theorem solar_profile_daylight year v w :
  (0 < v)%R ->
  let g := init year in
  exists curve s,
    outcome (generate_profile g "SOLAR_PPA" v) w = Ok s
    /\ outcome (synthetic_shape g "SOLAR_PPA") w = Ok curve
    /\ values s = normalize_synthetic curve v
    /\ forall i t, dates g !! i = Some t ->
         exists x y, curve !! i = Some x /\ values s !! i = Some y
           /\ (0 <= y)%R
           /\ (hour t < 6 \/ 20 < hour t -> y = 0%R)
           /\ (6 <= hour t <= 20 ->
                 x = Rmax (sin (IZR (hour t - 6) * PI / 14)) 0
                 /\ x = sin (IZR (hour t - 6) * PI / 14)).
Proof.
  intros Hv g.
  assert (Hg : n_hours g = length (dates g)) by reflexivity.
  set (w1 := emit (EvPrint "Using synthetic load generator (fallback).") w).
  destruct (solar_shape_run g Hg w1) as (c & Hc & Hl & Hlook).
  assert (Hshape : synthetic_shape g "SOLAR_PPA" w1 = (Ok c, w1)) by exact Hc.
  pose proof (synthetic_profile_run g Hg "SOLAR_PPA" v w _ _ Hshape Hl) as Hrun.
  rewrite <- (generate_profile_other g "SOLAR_PPA") in Hrun by discriminate.
  exists c. eexists. unfold outcome at 1. rewrite Hrun. cbn [fst values].
  split; [reflexivity|]. split.
  { unfold outcome. rewrite <- (synthetic_shape_emit g "SOLAR_PPA"
      (EvPrint "Using synthetic load generator (fallback).") w). fold w1.
    rewrite Hshape. reflexivity. }
  split; [reflexivity|].
  intros i t Ht. pose proof (Hlook i t Ht) as Hx.
  set (x := Rmax (if (6 <=? hour t) && (hour t <=? 20)
                  then sin (IZR (hour t - 6) * PI / 14) else 0) 0) in Hx.
  assert (Hx0 : (0 <= x)%R) by apply Rmax_r.
  assert (Hnight : hour t < 6 \/ 20 < hour t -> x = 0%R).
  { intros Hh. unfold x.
    replace ((6 <=? hour t) && (hour t <=? 20)) with false
      by (symmetry; apply andb_false_iff; rewrite Z.leb_gt, Z.leb_gt; lia).
    apply Rmax_left. lra. }
  assert (Hday : 6 <= hour t <= 20 ->
            x = Rmax (sin (IZR (hour t - 6) * PI / 14)) 0
            /\ x = sin (IZR (hour t - 6) * PI / 14)).
  { intros Hh. unfold x.
    replace ((6 <=? hour t) && (hour t <=? 20)) with true
      by (symmetry; apply andb_true_iff; rewrite !Z.leb_le; lia).
    split; [reflexivity|]. apply Rmax_left. apply daylight_sine_nonneg. exact Hh. }
  exists x. unfold normalize_synthetic.
  destruct (Rgt_dec (np_sum c) 0) as [Hpos|Hnpos].
  - exists (x / np_sum c * v)%R. split; [exact Hx|].
    split; [apply np_rescaled_lookup; exact Hx|]. split; [|split; [|exact Hday]].
    + apply Rmult_le_pos; [|lra]. apply Rmult_le_pos; [exact Hx0|].
      apply Rlt_le, Rinv_0_lt_compat. lra.
    + intros Hh. rewrite (Hnight Hh). lra.
  - exists x. repeat split; try assumption; apply Hday; assumption.
Qed.

Lemma solar_profile_daylight_witness :
  exists curve s,
    outcome (generate_profile (init 2026) "SOLAR_PPA" 5000) (still_world 0 (Raise EliaFault)) = Ok s
    /\ outcome (synthetic_shape (init 2026) "SOLAR_PPA") (still_world 0 (Raise EliaFault)) = Ok curve
    /\ values s = normalize_synthetic curve 5000
    /\ forall i t, dates (init 2026) !! i = Some t ->
         exists x y, curve !! i = Some x /\ values s !! i = Some y
           /\ (0 <= y)%R
           /\ (hour t < 6 \/ 20 < hour t -> y = 0%R)
           /\ (6 <= hour t <= 20 ->
                 x = Rmax (sin (IZR (hour t - 6) * PI / 14)) 0
                 /\ x = sin (IZR (hour t - 6) * PI / 14)).
Proof.
  apply (solar_profile_daylight 2026 5000 (still_world 0 (Raise EliaFault))). lra.
Defined.

(** ** The real-data path *)

Lemma ceil_div_covers (n len : nat) : (0 < len)%nat -> (n <= ceil_div n len * len)%nat.
Proof.
  intros Hlen. unfold ceil_div.
  pose proof (Nat.div_mod_eq (n + len - 1) len) as Hdm.
  pose proof (Nat.mod_upper_bound (n + len - 1) len ltac:(lia)) as Hm. nia.
Qed.

(** The code repeats the pattern [n_hours // len + 1] times, the
    specification [ceil(n_hours / len)] times: once cut to the calendar the
    two arrays are the same. *)
Lemma tile_pattern_as_specified g p :
  p <> [] -> tile_pattern g p = tiled_as_specified (n_hours g) p.
Proof.
  intros Hp.
  assert (Hlen : (0 < length p)%nat) by (destruct p; [congruence|cbn; lia]).
  apply list_eq. intros i. unfold tile_pattern, tiled_as_specified.
  destruct (decide (i < n_hours g)%nat) as [Hi|Hi].
  - rewrite !lookup_take_lt by exact Hi.
    pose proof (tile_covers (n_hours g) (length p) Hlen).
    pose proof (ceil_div_covers (n_hours g) (length p) Hlen).
    rewrite !np_tile_lookup by lia. reflexivity.
  - rewrite !lookup_take_ge by lia. reflexivity.
Qed.

(** The industrial archetype with a non-empty answer of the connector. *)
Lemma industry_real_run g v w p :
  n_hours g = length (dates g) ->
  elia_response w 14 = Ok p -> p <> [] ->
  generate_profile g "INDUSTRY_24_7" v w
  = (Ok {| values := normalize_real g (tile_pattern g p) v; index := dates g;
           name := "Real Load (MWh)" |},
     emit (EvPrint "Load profile generated using real Elia data.")
       (emit (EvFetch 14)
          (emit (EvPrint "Attempting to retrieve real Elia load profile...") w))).
Proof.
  intros Hg He Hp.
  destruct (generate_profile_run g "INDUSTRY_24_7" v w)
    as [(_ & e & He' & _)|[(_ & p' & He' & Hp' & Hrun)|[(_ & He' & _)|(Hpt & _)]]];
    try congruence.
  assert (p' = p) by congruence. subst p'.
  rewrite Hrun. apply real_data_profile_run; assumption.
Qed.

Lemma take_tile_exact {A} (p : list A) q r n :
  n = (q * length p)%nat -> take n (np_tile p (q + r)) = np_tile p q.
Proof.
  intros ->. rewrite np_tile_app. apply take_app_length'.
  symmetry. apply np_tile_length.
Qed.

Lemma alternating_tile_sum k : np_sum (np_tile [1; -1]%R k) = 0%R.
Proof. rewrite np_sum_tile. unfold np_sum. cbn [foldr]. lra. Qed.

Lemma n_hours_2026 : n_hours (init 2026) = (4380 * 2)%nat.
Proof. apply Nat2Z.inj. rewrite init_n_hours. reflexivity. Qed.

(** The pattern of two values tiled over the 8760 hours of 2026. *)
Lemma tiled_2026_pair (a b : R) :
  tiled_as_specified (n_hours (init 2026)) [a; b] = np_tile [a; b] 4380.
Proof.
  unfold tiled_as_specified. rewrite n_hours_2026.
  change (length [a; b]) with 2%nat.
  replace (ceil_div (4380 * 2) 2) with (4380 + 0)%nat by (vm_compute; reflexivity).
  apply take_tile_exact. reflexivity.
Qed.

Lemma tiled_2026_pair_sum (a b : R) :
  np_sum (tiled_as_specified (n_hours (init 2026)) [a; b]) = (4380 * (a + b))%R.
Proof.
  rewrite tiled_2026_pair, np_sum_tile.
  replace (INR 4380) with 4380%R by (rewrite INR_IZR_INZ; reflexivity).
  unfold np_sum. cbn [foldr]. lra.
Qed.

(** C3, as stated, fails.  The connector answers with the non-empty pattern
    [1; -1] for year 2026: the tiled curve, which starts with 1, has total
    zero, and the series returned is no volume-rescaled copy of it: every
    value is 0 and the values sum to 0, not to the 15000 MWh asked for. *)
Lemma zero_total_pattern_not_rescaled :
  let g := init 2026 in
  let tiled := tiled_as_specified (n_hours g) [1; -1]%R in
  exists s,
    outcome (generate_profile g "INDUSTRY_24_7" 15000) (still_world 0 (Ok [1; -1]%R)) = Ok s
    /\ tiled !! 0%nat = Some 1%R
    /\ np_sum tiled = 0%R
    /\ values s = np_zeros (n_hours g)
    /\ np_sum (values s) = 0%R
    /\ np_sum (values s) <> 15000%R.
Proof.
  intros g tiled.
  assert (Hg : n_hours g = length (dates g)) by reflexivity.
  assert (Hp : [1; -1]%R <> []) by discriminate.
  assert (Hsum : np_sum tiled = 0%R).
  { unfold tiled, g. rewrite tiled_2026_pair_sum. lra. }
  assert (Hrun := industry_real_run g 15000 (still_world 0 (Ok [1; -1]%R)) [1; -1]%R
                    Hg eq_refl Hp).
  rewrite (tile_pattern_as_specified g [1; -1]%R Hp) in Hrun. fold tiled in Hrun.
  eexists. unfold outcome. rewrite Hrun. cbn [fst values].
  split; [reflexivity|]. split.
  { unfold tiled, g. rewrite tiled_2026_pair. reflexivity. }
  split; [exact Hsum|].
  assert (Hv : normalize_real g tiled 15000 = np_zeros (n_hours g)).
  { unfold normalize_real.
    destruct (Req_dec_T (np_sum tiled) 0) as [_|Hne]; [reflexivity|contradiction]. }
  cbn [values]. rewrite Hv, np_sum_zeros.
  split; [reflexivity|]. split; [reflexivity|lra].
Qed.

(** C3, amended.  Whenever the archetype is INDUSTRY_24_7 and the connector
    answers with a non-empty pattern, the call returns at once the series
    named "Real Load (MWh)" over the calendar: its events are the
    announcement, the fetch and the closing line only (no fallback line, no
    draw) and the random state is untouched.  The curve it normalises is the
    pattern repeated [ceil(n_hours / len(pattern))] times and cut to the
    calendar, whose i-th value is [pattern[i mod len(pattern)]].  When the
    total of the tiled curve is not zero, the returned value at hour [i] is
    that value divided by the total and multiplied by [annual_volume_mwh],
    and the returned values sum to [annual_volume_mwh] (in exact arithmetic);
    when the total is zero, every returned value is 0. *)
Theorem real_data_profile_is_tiled_pattern year v w pattern :
  elia_response w 14 = Ok pattern -> pattern <> [] ->
  let g := init year in
  let run := generate_profile g "INDUSTRY_24_7" v in
  let tiled := tiled_as_specified (n_hours g) pattern in
  exists s,
    outcome run w = Ok s
    /\ name s = "Real Load (MWh)" /\ index s = dates g
    /\ events_of run w
       = [EvPrint "Attempting to retrieve real Elia load profile...";
          EvFetch 14;
          EvPrint "Load profile generated using real Elia data."]
    /\ rng (world_after run w) = rng w
    /\ length tiled = n_hours g
    /\ (forall i, (i < n_hours g)%nat ->
          exists x, pattern !! (i mod length pattern)%nat = Some x
                    /\ tiled !! i = Some x
                    /\ (np_sum tiled <> 0%R ->
                        values s !! i = Some (x / np_sum tiled * v)%R)
                    /\ (np_sum tiled = 0%R -> values s !! i = Some 0%R))
    /\ (np_sum tiled <> 0%R -> np_sum (values s) = v).
Proof.
  intros He Hp g run tiled.
  assert (Hg : n_hours g = length (dates g)) by reflexivity.
  pose proof (industry_real_run g v w pattern Hg He Hp) as Hrun. fold run in Hrun.
  pose proof (tile_pattern_as_specified g pattern Hp) as Htile. fold tiled in Htile.
  rewrite Htile in Hrun.
  assert (Hlen : (0 < length pattern)%nat) by (destruct pattern; [congruence|cbn; lia]).
  eexists. unfold outcome, world_after. rewrite Hrun. cbn [fst snd name index values].
  split; [reflexivity|]. split; [reflexivity|]. split; [reflexivity|]. split.
  { apply events_of_app. rewrite Hrun. cbn [snd log emit]. rewrite <- !app_assoc. reflexivity. }
  split; [reflexivity|]. split.
  { rewrite <- Htile. apply tile_pattern_length; assumption. }
  split.
  - intros i Hi.
    pose proof (Nat.mod_upper_bound i (length pattern) ltac:(lia)) as Hm.
    destruct (lookup_lt_is_Some_2 pattern _ Hm) as (x & Hx).
    assert (Ht : tiled !! i = Some x)
      by (rewrite <- Htile, tile_pattern_lookup by assumption; exact Hx).
    exists x. split; [exact Hx|]. split; [exact Ht|]. unfold normalize_real.
    destruct (Req_dec_T (np_sum tiled) 0) as [Hz|Hnz].
    + split; [intros Hne; contradiction|]. intros _. apply np_zeros_lookup. exact Hi.
    + split; [|intros Hz; contradiction]. intros _. apply np_rescaled_lookup. exact Ht.
  - intros Hnz. unfold normalize_real.
    destruct (Req_dec_T (np_sum tiled) 0) as [Hz|_]; [contradiction|].
    apply np_sum_normalized. exact Hnz.
Qed.

Lemma real_data_profile_is_tiled_pattern_witness :
  let g := init 2026 in
  let w := still_world 0 (Ok [3; 1]%R) in
  let run := generate_profile g "INDUSTRY_24_7" 15000 in
  let tiled := tiled_as_specified (n_hours g) [3; 1]%R in
  exists s,
    outcome run w = Ok s
    /\ name s = "Real Load (MWh)"
    /\ events_of run w
       = [EvPrint "Attempting to retrieve real Elia load profile...";
          EvFetch 14;
          EvPrint "Load profile generated using real Elia data."]
    /\ np_sum tiled = 17520%R
    /\ tiled !! 1%nat = Some 1%R
    /\ values s !! 1%nat = Some (1 / np_sum tiled * 15000)%R
    /\ np_sum (values s) = 15000%R.
Proof.
  intros g w run tiled.
  assert (Hsum : np_sum tiled = 17520%R).
  { unfold tiled, g. rewrite tiled_2026_pair_sum. lra. }
  assert (Hnz : np_sum tiled <> 0%R) by (rewrite Hsum; lra).
  assert (H1 : (1 < n_hours g)%nat) by (unfold g; rewrite n_hours_2026; lia).
  destruct (real_data_profile_is_tiled_pattern 2026 15000 w [3; 1]%R)
    as (s & Hs & Hname & _ & Hev & _ & _ & Hval & Htotal);
    [reflexivity|discriminate|].
  destruct (Hval 1%nat H1) as (x & Hx & Ht & Hscaled & _).
  injection Hx as <-.
  exists s. split; [exact Hs|]. split; [exact Hname|]. split; [exact Hev|].
  split; [exact Hsum|]. split; [exact Ht|]. split; [apply Hscaled; exact Hnz|].
  apply Htotal. exact Hnz.
Defined.

(** ** Normalisation *)

(** C1, as stated, fails.  The connector answers with the two-hour pattern
    [1; -1] for year 2026: the tiled curve that reaches the normalisation has
    total exactly zero and is not all zeros, and the call does not return it
    unchanged (it returns the all-zero array). *)
Lemma zero_sum_real_curve_not_returned_unchanged :
  let g := init 2026 in
  let curve := tile_pattern g [1; -1]%R in
  exists s,
    generate_profile g "INDUSTRY_24_7" 15000 (still_world 0 (Ok [1; -1]%R))
    = (Ok s, emit (EvPrint "Load profile generated using real Elia data.")
               (emit (EvFetch 14)
                  (emit (EvPrint "Attempting to retrieve real Elia load profile...")
                     (still_world 0 (Ok [1; -1]%R)))))
    /\ values s = normalize_real g curve 15000
    /\ np_sum curve = 0%R
    /\ values s <> curve.
Proof.
  intros g curve.
  assert (Hg : n_hours g = length (dates g)) by reflexivity.
  assert (Hp : [1; -1]%R <> []) by discriminate.
  assert (H0 : (0 < n_hours g)%nat) by apply init_n_hours_pos.
  assert (Hsum : np_sum curve = 0%R).
  { unfold curve, tile_pattern. unfold g at 1 2. rewrite n_hours_2026.
    change (length [1; -1]%R) with 2%nat. rewrite Nat.div_mul by discriminate.
    rewrite (take_tile_exact [1; -1]%R 4380 1) by reflexivity. apply alternating_tile_sum. }
  eexists. split; [apply industry_real_run; [exact Hg|reflexivity|exact Hp]|].
  cbn [values]. fold curve. split; [reflexivity|]. split; [exact Hsum|].
  unfold normalize_real.
  destruct (Req_dec_T (np_sum curve) 0) as [_|Hne]; [|contradiction].
  intros Heq.
  pose proof (np_zeros_lookup (n_hours g) 0 H0) as Hz.
  pose proof (tile_pattern_lookup g Hg [1; -1]%R 0 Hp H0) as Hc. fold curve in Hc.
  rewrite Heq, Hc in Hz. cbn in Hz. injection Hz as Hz. lra.
Qed.

(** The other side of the same degenerate case, on the synthetic path and for
    draws an ideal Gaussian allows: with no weekend day configured and draws
    alternating 1 and -1, the industrial curve of 2026 has total zero; it is
    returned unchanged, hence not as zeros. *)
Remark zero_sum_synthetic_curve_returned_as_is :
  let g := init 2026 in
  exists curve s,
    outcome (generate_profile g "INDUSTRY_24_7" 15000) alternating_world = Ok s
    /\ outcome (synthetic_shape g "INDUSTRY_24_7") alternating_world = Ok curve
    /\ values s = normalize_synthetic curve 15000
    /\ np_sum curve = 0%R
    /\ values s = curve
    /\ values s <> np_zeros (n_hours g).
Proof.
  intros g.
  assert (Hg : n_hours g = length (dates g)) by reflexivity.
  assert (H0 : (0 < n_hours g)%nat) by apply init_n_hours_pos.
  destruct (industry_fallback_run g 15000 alternating_world Hg eq_refl)
    as (c & Hrun & Hc & Hl & Hlook).
  assert (Hn : n_hours g = (4380 * 2)%nat) by apply n_hours_2026.
  assert (Hceq : c = np_tile [1; -1]%R 4380).
  { apply list_eq. intros i. destruct (decide (i < n_hours g)%nat) as [Hi|Hi].
    - destruct (lookup_lt_is_Some_2 (dates g) i ltac:(rewrite <- Hg; exact Hi)) as (t & Ht).
      rewrite (Hlook i t Ht). cbn [weekend_days alternating_world existsb rng].
      rewrite np_tile_lookup by (cbn [length]; lia). cbn [length].
      pose proof (Nat.mod_upper_bound i 2 ltac:(discriminate)) as Hm.
      destruct (i mod 2)%nat as [|[|k]]; [| |lia]; cbn [Nat.eqb lookup list_lookup];
        f_equal; lra.
    - rewrite (lookup_ge_None_2 c) by lia.
      symmetry. apply lookup_ge_None_2. rewrite np_tile_length. cbn [length]. lia. }
  assert (Hsum : np_sum c = 0%R) by (rewrite Hceq; apply alternating_tile_sum).
  assert (Hval : normalize_synthetic c 15000 = c).
  { unfold normalize_synthetic. destruct (Rgt_dec (np_sum c) 0); [lra|reflexivity]. }
  exists c. eexists. unfold outcome at 1. rewrite Hrun. cbn [fst values].
  split; [reflexivity|]. split; [exact Hc|]. split; [reflexivity|].
  split; [exact Hsum|]. split; [exact Hval|].
  rewrite Hval. intros Heq.
  pose proof (np_zeros_lookup (n_hours g) 0 H0) as Hz.
  rewrite <- Heq, Hceq in Hz. cbn in Hz. injection Hz as Hz. lra.
Qed.

(** C1, amended.  In exact arithmetic (values taken as real numbers, no
    rounding): for every archetype string and every year, provided the
    connector does not fault when it is consulted, the call returns a series
    computed from one curve of calendar length: the tiled real pattern
    (series "Real Load (MWh)") or the curve of the shaping stage (series
    "Synthetic Load").  If the total of that curve is strictly positive, the
    value at each hour is [curve[i] / total * annual_volume_mwh] and the
    returned values sum to [annual_volume_mwh].  If the total is exactly zero,
    the synthetic path returns the curve unchanged and the real-data path
    returns the all-zero array of calendar length; the two agree, and the
    output is the curve unchanged and all zeros, whenever the curve has no
    negative entry.  Neither case raises. *)
Theorem normalization_conserves_volume year pt v w :
  (pt = "INDUSTRY_24_7" -> exists data, elia_response w 14 = Ok data) ->
  let g := init year in
  exists curve s,
    outcome (generate_profile g pt v) w = Ok s
    /\ length curve = n_hours g
    /\ ((name s = "Real Load (MWh)"
         /\ (exists p, pt = "INDUSTRY_24_7" /\ elia_response w 14 = Ok p
                       /\ p <> [] /\ curve = tile_pattern g p)
         /\ values s = normalize_real g curve v)
        \/ (name s = "Synthetic Load"
            /\ outcome (synthetic_shape g pt) w = Ok curve
            /\ values s = normalize_synthetic curve v))
    /\ ((0 < np_sum curve)%R ->
          np_sum (values s) = v
          /\ forall i x, curve !! i = Some x ->
               values s !! i = Some (x / np_sum curve * v)%R)
    /\ (np_sum curve = 0%R ->
          (name s = "Synthetic Load" -> values s = curve)
          /\ (name s = "Real Load (MWh)" -> values s = np_zeros (n_hours g))
          /\ (Forall (fun x => (0 <= x)%R) curve ->
                values s = curve /\ values s = np_zeros (n_hours g))).
Proof.
  intros Hfetch g.
  assert (Hg : n_hours g = length (dates g)) by reflexivity.
  assert (Hsynth : forall w0 : World,
            fst (synthetic_shape g pt w0) = fst (synthetic_shape g pt w) ->
            generate_profile g pt v w = synthetic_profile g pt v w0 ->
            exists curve s,
              outcome (generate_profile g pt v) w = Ok s
              /\ length curve = n_hours g
              /\ name s = "Synthetic Load"
              /\ outcome (synthetic_shape g pt) w = Ok curve
              /\ values s = normalize_synthetic curve v).
  { intros w0 Hsame Hrun.
    destruct (synthetic_profile_total g Hg pt v w0) as (c & w' & evs & _ & Hl & Hc & Hsp & _).
    exists c. eexists. unfold outcome in *. rewrite Hrun, Hsp. cbn [fst name values].
    split; [reflexivity|]. split; [exact Hl|]. split; [reflexivity|].
    split; [rewrite <- Hsame; exact Hc|reflexivity]. }
  assert (Hcases : exists curve s,
            outcome (generate_profile g pt v) w = Ok s
            /\ length curve = n_hours g
            /\ ((name s = "Real Load (MWh)"
                 /\ (exists p, pt = "INDUSTRY_24_7" /\ elia_response w 14 = Ok p
                               /\ p <> [] /\ curve = tile_pattern g p)
                 /\ values s = normalize_real g curve v)
                \/ (name s = "Synthetic Load"
                    /\ outcome (synthetic_shape g pt) w = Ok curve
                    /\ values s = normalize_synthetic curve v))).
  { destruct (generate_profile_run g pt v w)
      as [(Hpt & e & He & _)|[(Hpt & p & He & Hp & _)|[(Hpt & He & Hrun)|(Hpt & Hrun)]]].
    - destruct (Hfetch Hpt) as (data & Hd). congruence.
    - subst pt. exists (tile_pattern g p). eexists. unfold outcome.
      rewrite (industry_real_run g v w p Hg He Hp). cbn [fst name values].
      split; [reflexivity|]. split; [apply tile_pattern_length; assumption|].
      left. split; [reflexivity|]. split; [|reflexivity]. exists p. auto.
    - assert (Hsame : fst (synthetic_shape g pt
                             (emit (EvFetch 14)
                                (emit (EvPrint "Attempting to retrieve real Elia load profile...") w)))
                      = fst (synthetic_shape g pt w))
        by (rewrite 2!synthetic_shape_emit; reflexivity).
      destruct (Hsynth _ Hsame Hrun) as (c & s & Hs & Hl & Hn & Hc & Hv).
      exists c, s. split; [exact Hs|]. split; [exact Hl|]. right. auto.
    - destruct (Hsynth w eq_refl Hrun) as (c & s & Hs & Hl & Hn & Hc & Hv).
      exists c, s. split; [exact Hs|]. split; [exact Hl|]. right. auto. }
  destruct Hcases as (c & s & Hs & Hl & Hpath).
  exists c, s. split; [exact Hs|]. split; [exact Hl|]. split; [exact Hpath|]. split.
  - intros Hpos.
    assert (Hv : values s = np_mul (np_div c (np_sum c)) v).
    { destruct Hpath as [(_ & _ & ->)|(_ & _ & ->)].
      - unfold normalize_real. destruct (Req_dec_T (np_sum c) 0); [lra|reflexivity].
      - unfold normalize_synthetic. destruct (Rgt_dec (np_sum c) 0); [reflexivity|lra]. }
    rewrite Hv. split; [apply np_sum_normalized; lra|].
    intros i x Hx. apply np_rescaled_lookup. exact Hx.
  - intros Hzero.
    assert (Hsy : name s = "Synthetic Load" -> values s = c).
    { intros Hn. destruct Hpath as [(Hn' & _)|(_ & _ & ->)]; [congruence|].
      unfold normalize_synthetic. destruct (Rgt_dec (np_sum c) 0); [lra|reflexivity]. }
    assert (Hre : name s = "Real Load (MWh)" -> values s = np_zeros (n_hours g)).
    { intros Hn. destruct Hpath as [(_ & _ & ->)|(Hn' & _)]; [|congruence].
      unfold normalize_real. destruct (Req_dec_T (np_sum c) 0); [reflexivity|contradiction]. }
    split; [exact Hsy|]. split; [exact Hre|].
    intros Hnonneg. pose proof (np_sum_zero_nonneg c Hnonneg Hzero) as Hc0.
    rewrite Hl in Hc0.
    destruct Hpath as [(Hn & _)|(Hn & _)].
    + rewrite (Hre Hn). split; [symmetry; exact Hc0|reflexivity].
    + rewrite (Hsy Hn). split; [reflexivity|exact Hc0].
Qed.

Lemma normalization_conserves_volume_witness :
  let g := init 2026 in
  let w := still_world 0 (Ok [3; 1]%R) in
  exists s,
    outcome (generate_profile g "INDUSTRY_24_7" 15000) w = Ok s
    /\ name s = "Real Load (MWh)"
    /\ np_sum (tile_pattern g [3; 1]%R) = 17520%R
    /\ values s !! 0%nat = Some (3 / np_sum (tile_pattern g [3; 1]%R) * 15000)%R
    /\ np_sum (values s) = 15000%R.
Proof.
  intros g w.
  assert (Hg : n_hours g = length (dates g)) by reflexivity.
  assert (Hp : [3; 1]%R <> []) by discriminate.
  assert (Hsum : np_sum (tile_pattern g [3; 1]%R) = 17520%R).
  { rewrite (tile_pattern_as_specified g [3; 1]%R Hp).
    unfold g. rewrite tiled_2026_pair_sum. lra. }
  assert (H0 : tile_pattern g [3; 1]%R !! 0%nat = Some 3%R).
  { rewrite (tile_pattern_as_specified g [3; 1]%R Hp).
    unfold g. rewrite tiled_2026_pair. reflexivity. }
  assert (Hrun := industry_real_run g 15000 w [3; 1]%R Hg eq_refl Hp).
  destruct (normalization_conserves_volume 2026 "INDUSTRY_24_7" 15000 w)
    as (curve & s & Hs & _ & Hpath & Hpos & _);
    [intros _; exists [3; 1]%R; reflexivity|].
  fold g in Hs, Hpath.
  assert (Hname : name s = "Real Load (MWh)").
  { unfold outcome in Hs. rewrite Hrun in Hs. cbn [fst] in Hs.
    injection Hs as <-. reflexivity. }
  assert (Hcurve : curve = tile_pattern g [3; 1]%R).
  { destruct Hpath as [(_ & (p & _ & Hp' & _ & ->) & _)|(Hn & _)].
    - injection Hp' as <-. reflexivity.
    - rewrite Hname in Hn. discriminate Hn. }
  subst curve. rewrite Hsum in Hpos.
  destruct Hpos as (Htotal & Hval); [lra|].
  exists s. split; [exact Hs|]. split; [exact Hname|]. split; [exact Hsum|].
  split; [rewrite Hsum; apply Hval; exact H0|exact Htotal].
Defined.

(** ** The hourly-data tab of the export *)

Section ExportFacts.

Lemma data_rows_to_excel (s : Series) :
  data_rows (fst (export_pricing_to_excel s))
  = zip_with (fun t v => [CDate t; CNumber v]) (index s) (values s).
Proof. reflexivity. Qed.

Lemma column_B_of_rows (ts : list Timestamp) (vs : list R) :
  length vs = length ts ->
  omap (fun row : list Cell => row !! 1%nat)
       (zip_with (fun t v => [CDate t; CNumber v]) ts vs)
  = map CNumber vs.
Proof.
  revert vs. induction ts as [|t ts IH]; intros [|x vs] Hl; try discriminate; [reflexivity|].
  injection Hl as Hl. cbn [zip_with omap list_omap lookup list_lookup map].
  f_equal. apply IH. exact Hl.
Qed.

Lemma column_A_of_rows (ts : list Timestamp) (vs : list R) :
  length vs = length ts ->
  omap (fun row : list Cell => row !! 0%nat)
       (zip_with (fun t v => [CDate t; CNumber v]) ts vs)
  = map CDate ts.
Proof.
  revert vs. induction ts as [|t ts IH]; intros [|x vs] Hl; try discriminate; [reflexivity|].
  injection Hl as Hl. cbn [zip_with omap list_omap lookup list_lookup map].
  f_equal. apply IH. exact Hl.
Qed.

End ExportFacts.

(** C9, as stated, fails.  The series [generate_profile] returns for 2026
    (here for SOLAR_PPA) is written whole to the hourly-data worksheet: the
    sheet holds 8760 data rows, not 168. *)
Lemma hourly_sheet_holds_more_than_a_week :
  exists s,
    outcome (generate_profile (init 2026) "SOLAR_PPA" 5000)
            (still_world 0 (Raise EliaFault)) = Ok s
    /\ Z.of_nat (length (data_rows (fst (export_pricing_to_excel s)))) = 8760
    /\ length (data_rows (fst (export_pricing_to_excel s))) <> 168%nat.
Proof.
  set (g := init 2026).
  assert (Hg : n_hours g = length (dates g)) by reflexivity.
  destruct (synthetic_profile_total g Hg "SOLAR_PPA" 5000 (still_world 0 (Raise EliaFault)))
    as (c & w' & evs & _ & Hl & _ & Hrun & _).
  eexists. unfold outcome.
  rewrite (generate_profile_other g "SOLAR_PPA") by discriminate.
  rewrite Hrun. cbn [fst]. split; [reflexivity|].
  rewrite data_rows_to_excel. cbn [index values].
  rewrite length_zip_with, normalize_synthetic_length, Hl, <- Hg, Nat.min_id.
  pose proof (init_n_hours 2026) as Hn. change (is_leap 2026) with false in Hn.
  fold g in Hn. cbv iota in Hn. split; [exact Hn|]. lia.
Qed.

(** C9, amended.  The exporter writes the whole load curve to the hourly-data
    worksheet, one row per point under the header row, timestamps in column A
    and values in column B; the inserted line chart has one series, whose
    categories are rows 2 to 169 of column A and whose values are rows 2 to
    169 of column B of that sheet, that is the first 168 points of the curve
    (one representative week). *)
Theorem hourly_sheet_whole_curve_chart_first_week (load_curve : Series) :
  length (values load_curve) = length (index load_curve) ->
  let tab := export_pricing_to_excel load_curve in
  data_rows (fst tab)
    = zip_with (fun t v => [CDate t; CNumber v]) (index load_curve) (values load_curve)
  /\ length (data_rows (fst tab)) = length (values load_curve)
  /\ map (fun cs => (first_row (series_values cs), last_row (series_values cs)))
         (chart_series (snd tab)) = [(2, 169)%nat]
  /\ charted_values tab = [map CNumber (take 168 (values load_curve))]
  /\ charted_categories tab = [map CDate (take 168 (index load_curve))].
Proof.
  intros Hl tab. subst tab.
  assert (Hlt : length (take 168 (values load_curve)) = length (take 168 (index load_curve)))
    by (rewrite !length_take, Hl; reflexivity).
  split; [reflexivity|]. split.
  { rewrite data_rows_to_excel, length_zip_with. lia. }
  split; [reflexivity|].
  unfold charted_values, charted_categories, range_cells, export_pricing_to_excel.
  cbn [fst snd chart_series map series_values categories first_row last_row
       range_column range_sheet sheet_name cells].
  rewrite String.eqb_refl.
  change (S 169 - 2)%nat with 168%nat. change (2 - 1)%nat with 1%nat.
  unfold to_excel, to_frame. cbn [drop df_index df_values index_name column_name].
  rewrite drop_0, zip_with_take.
  split; f_equal; [apply column_B_of_rows|apply column_A_of_rows]; exact Hlt.
Qed.

Lemma hourly_sheet_whole_curve_chart_first_week_witness :
  let load_curve :=
    {| values := np_zeros 170;
       index := date_range (timestamp 2026 1 1 0) (timestamp 2026 1 8 1);
       name := "Synthetic Load" |} in
  let tab := export_pricing_to_excel load_curve in
  data_rows (fst tab)
    = zip_with (fun t v => [CDate t; CNumber v]) (index load_curve) (values load_curve)
  /\ length (data_rows (fst tab)) = length (values load_curve)
  /\ map (fun cs => (first_row (series_values cs), last_row (series_values cs)))
         (chart_series (snd tab)) = [(2, 169)%nat]
  /\ charted_values tab = [map CNumber (take 168 (values load_curve))]
  /\ charted_categories tab = [map CDate (take 168 (index load_curve))].
Proof.
  apply (hourly_sheet_whole_curve_chart_first_week
           {| values := np_zeros 170;
              index := date_range (timestamp 2026 1 1 0) (timestamp 2026 1 8 1);
              name := "Synthetic Load" |}).
  vm_compute. reflexivity.
Defined.

(** ** The definitions at work *)

Example np_tile_example : take 5 (np_tile [1; 2; 3] (5 / 3 + 1)) = [1; 2; 3; 1; 2].
Proof. reflexivity. Qed.

Example tiled_as_specified_example :
  tiled_as_specified 4 [1; 2]%R = [1; 2; 1; 2]%R.
Proof. reflexivity. Qed.

Example mask_put_example :
  mask_put [0; 0; 0; 0]%R [true; false; true; false] [7; 8]%R = [7; 0; 8; 0]%R.
Proof. reflexivity. Qed.

Example mask_assign_shape_error :
  mask_assign [0; 0]%R [true; true] [7; 8; 9]%R
  = Raise (ValueError "cannot assign input values to the output values where the mask is true").
Proof. reflexivity. Qed.

Example jan1_2026_is_thursday : dayofweek (timestamp 2026 1 1 0) = 3.
Proof. reflexivity. Qed.

Example year_2026_first_and_last_hour :
  dates (init 2026) !! 0%nat = Some (timestamp 2026 1 1 0)
  /\ dates (init 2026) !! Z.to_nat 8759 = Some (timestamp 2026 12 31 23)
  /\ dates (init 2026) !! Z.to_nat 8760 = None.
Proof.
  pose proof (init_n_hours 2026) as Hn. change (is_leap 2026) with false in Hn.
  cbv iota in Hn. split; [|split].
  - rewrite init_dates_lookup by lia. reflexivity.
  - rewrite init_dates_lookup by lia. reflexivity.
  - apply lookup_ge_None. rewrite init_dates_length. lia.
Qed.

Example leap_year_2028_hours : Z.of_nat (n_hours (init 2028)) = 8784.
Proof. apply init_n_hours. Qed.

Example first_saturday_2026_is_weekend :
  (isin (map dayofweek (dates (init 2026))) [5; 6]) !! 48%nat = Some true.
Proof.
  pose proof (init_n_hours 2026) as Hn. change (is_leap 2026) with false in Hn.
  cbv iota in Hn. unfold isin.
  rewrite !list_lookup_fmap, init_dates_lookup by lia. reflexivity.
Qed.

Example first_week_chart_range :
  range_cells
    (mkSheet "Données Horaires"
       [[CText "h"; CText "v"]; [CText "a"; CNumber 1]; [CText "b"; CNumber 2]])
    (mkRange "Données Horaires" 1 2 169)
  = [CNumber 1; CNumber 2].
Proof. reflexivity. Qed.

Example working_hours_of_first_week_2026 :
  is_working_mask (init 2026) !! 8%nat = Some true       (* Thursday 08:00 *)
  /\ is_working_mask (init 2026) !! 18%nat = Some true   (* Thursday 18:00 *)
  /\ is_working_mask (init 2026) !! 19%nat = Some false  (* Thursday 19:00 *)
  /\ is_working_mask (init 2026) !! 56%nat = Some false. (* Saturday 08:00 *)
Proof.
  pose proof (init_n_hours 2026) as Hn. change (is_leap 2026) with false in Hn.
  cbv iota in Hn.
  repeat split;
    (erewrite is_working_mask_lookup by (apply init_dates_lookup; lia); reflexivity).
Qed.

Example daylight_hours_of_first_day_2026 :
  daylight_mask (init 2026) !! 5%nat = Some false
  /\ daylight_mask (init 2026) !! 6%nat = Some true
  /\ daylight_mask (init 2026) !! 20%nat = Some true
  /\ daylight_mask (init 2026) !! 21%nat = Some false.
Proof.
  pose proof (init_n_hours 2026) as Hn. change (is_leap 2026) with false in Hn.
  cbv iota in Hn.
  repeat split;
    (erewrite daylight_mask_lookup by (apply init_dates_lookup; lia); reflexivity).
Qed.

(** * Further properties of the generator *)

(** ** Which calls raise *)

Lemma generate_profile_returns g pt v w :
  n_hours g = length (dates g) ->
  (pt = "INDUSTRY_24_7" -> exists data, elia_response w 14 = Ok data) ->
  exists s, outcome (generate_profile g pt v) w = Ok s.
Proof.
  intros Hg Hfetch. unfold outcome.
  destruct (generate_profile_run g pt v w)
    as [(Hpt & e & He & _)|[(Hpt & p & He & Hp & Hrun)|[(Hpt & He & Hrun)|(Hpt & Hrun)]]].
  - destruct (Hfetch Hpt) as (data & Hd). congruence.
  - rewrite Hrun, (real_data_profile_run g Hg) by exact Hp. eexists. reflexivity.
  - destruct (synthetic_profile_total g Hg pt v
                (emit (EvFetch 14)
                   (emit (EvPrint "Attempting to retrieve real Elia load profile...") w)))
      as (c & w' & evs & _ & _ & _ & Hsp & _).
    rewrite Hrun, Hsp. eexists. reflexivity.
  - destruct (synthetic_profile_total g Hg pt v w) as (c & w' & evs & _ & _ & _ & Hsp & _).
    rewrite Hrun, Hsp. eexists. reflexivity.
Qed.

(** The range of a float holds the volumes of every day: anything up to
    65536, and far beyond. *)
Lemma float_max_ge : (2 ^ 16 <= float_max)%R.
Proof.
  unfold float_max.
  assert (H52 : (1 <= 2 ^ 52)%R) by (apply pow_R1_Rle; lra).
  assert (Hinv : (/ 2 ^ 52 <= 1)%R).
  { rewrite <- Rinv_1. apply Rinv_le_contravar; lra. }
  assert (Hpow : (2 ^ 16 <= 2 ^ 1023)%R) by (apply Rle_pow; [lra|lia]).
  assert (Hpos : (0 < 2 ^ 16)%R) by (apply pow_lt; lra).
  nra.
Qed.

(** X1. For a volume within the range of a float (a Python integer beyond
    it cannot be multiplied with the curve), a call of [generate_profile]
    raises exactly when the archetype is INDUSTRY_24_7 and the Elia connector
    raises, and what it raises is the connector's exception: the masked
    assignments and the construction of the series never fail.  The call that
    raises has announced and attempted the fetch, and has drawn nothing from
    the random state. *)
Theorem generate_profile_raises_connector_fault_only year pt v w e :
  (Rabs v <= float_max)%R ->
  let run := generate_profile (init year) pt v in
  (outcome run w = Raise e <-> pt = "INDUSTRY_24_7" /\ elia_response w 14 = Raise e)
  /\ (outcome run w = Raise e ->
      events_of run w = [EvPrint "Attempting to retrieve real Elia load profile...";
                         EvFetch 14]
      /\ rng (world_after run w) = rng w).
Proof.
  intros _ run. subst run. set (g := init year). set (run := generate_profile g pt v).
  assert (Hg : n_hours g = length (dates g)) by reflexivity.
  assert (Hiff : outcome run w = Raise e
                 <-> pt = "INDUSTRY_24_7" /\ elia_response w 14 = Raise e).
  { split.
    - intros Hr.
      destruct (generate_profile_run g pt v w)
        as [(Hpt & e' & He & Hrun)|Hother].
      + fold run in Hrun. unfold outcome in Hr. rewrite Hrun in Hr. cbn in Hr.
        split; [exact Hpt|]. congruence.
      + assert (Hok : exists s, outcome run w = Ok s).
        { apply generate_profile_returns; [exact Hg|]. intros Hpt.
          destruct Hother as [(_ & p & He & _)|[(_ & He & _)|(Hne & _)]];
            [eauto|eauto|contradiction]. }
        destruct Hok as (s & Hs). congruence.
    - intros (Hpt & He).
      destruct (generate_profile_run g pt v w)
        as [(_ & e' & He' & Hrun)|[(_ & p & He' & _)|[(_ & He' & _)|(Hne & _)]]];
        try congruence.
      fold run in Hrun. unfold outcome. rewrite Hrun. cbn. congruence. }
  split; [exact Hiff|].
  intros Hr. apply Hiff in Hr as (Hpt & He).
  destruct (generate_profile_run g pt v w)
    as [(_ & e' & He' & Hrun)|[(_ & p & He' & _)|[(_ & He' & _)|(Hne & _)]]];
    try congruence.
  fold run in Hrun. unfold world_after. split.
  - apply events_of_app. rewrite Hrun. cbn [snd log emit]. rewrite <- !app_assoc. reflexivity.
  - rewrite Hrun. reflexivity.
Qed.

Lemma generate_profile_raises_connector_fault_only_witness :
  events_of (generate_profile (init 2026) "INDUSTRY_24_7" 15000)
            (still_world 0 (Raise EliaFault))
  = [EvPrint "Attempting to retrieve real Elia load profile..."; EvFetch 14]
  /\ rng (world_after (generate_profile (init 2026) "INDUSTRY_24_7" 15000)
                      (still_world 0 (Raise EliaFault)))
     = rng (still_world 0 (Raise EliaFault)).
Proof.
  destruct (generate_profile_raises_connector_fault_only 2026 "INDUSTRY_24_7" 15000
              (still_world 0 (Raise EliaFault)) EliaFault) as (Hiff & Hev).
  - rewrite Rabs_pos_eq by lra. pose proof float_max_ge. lra.
  - apply Hev. apply Hiff. split; reflexivity.
Defined.

(** ** The solar series *)

Lemma np_sum_ge_lookup l i x :
  Forall (fun y => (0 <= y)%R) l -> l !! i = Some x -> (x <= np_sum l)%R.
Proof.
  intros Hl. revert i. induction Hl as [|y l Hy Hl IH]; intros [|i] Hx; try discriminate.
  - cbn in Hx. injection Hx as ->. rewrite np_sum_cons.
    pose proof (np_sum_nonneg l Hl). lra.
  - cbn [lookup list_lookup] in Hx. rewrite np_sum_cons. specialize (IH i Hx). lra.
Qed.

(** The solar call in full: its curve is the clamped sine of the hour of day,
    has no negative entry and a positive total. *)
Lemma solar_profile_run year v w :
  let g := init year in
  exists curve,
    generate_profile g "SOLAR_PPA" v w
    = (Ok {| values := normalize_synthetic curve v; index := dates g;
             name := "Synthetic Load" |},
       emit (EvPrint "Using synthetic load generator (fallback).") w)
    /\ length curve = n_hours g
    /\ (forall i t, dates g !! i = Some t ->
          curve !! i = Some (Rmax (if (6 <=? hour t) && (hour t <=? 20)
                                   then sin (IZR (hour t - 6) * PI / 14)
                                   else 0) 0))
    /\ Forall (fun x => (0 <= x)%R) curve
    /\ (0 < np_sum curve)%R.
Proof.
  intros g.
  assert (Hg : n_hours g = length (dates g)) by reflexivity.
  set (w1 := emit (EvPrint "Using synthetic load generator (fallback).") w).
  destruct (solar_shape_run g Hg w1) as (c & Hc & Hl & Hlook).
  assert (Hshape : synthetic_shape g "SOLAR_PPA" w1 = (Ok c, w1)) by exact Hc.
  pose proof (synthetic_profile_run g Hg "SOLAR_PPA" v w _ _ Hshape Hl) as Hrun.
  rewrite <- (generate_profile_other g "SOLAR_PPA") in Hrun by discriminate.
  assert (Hnn : Forall (fun x => (0 <= x)%R) c).
  { apply Forall_lookup. intros i x Hx.
    pose proof (lookup_lt_Some _ _ _ Hx) as Hi. rewrite Hl, Hg in Hi.
    destruct (lookup_lt_is_Some_2 _ _ Hi) as (t & Ht).
    rewrite (Hlook i t Ht) in Hx. injection Hx as <-. apply Rmax_r. }
  exists c. split; [exact Hrun|]. split; [exact Hl|]. split; [exact Hlook|].
  split; [exact Hnn|].
  assert (H13 : (13 < n_hours g)%nat).
  { pose proof (init_n_hours year) as Hn. fold g in Hn. destruct (is_leap year); lia. }
  pose proof (init_dates_lookup year 13 H13) as Ht. fold g in Ht.
  pose proof (init_dates_hour year 13 _ Ht) as Hh.
  pose proof (Hlook 13%nat _ Ht) as Hx. rewrite Hh in Hx.
  change (Z.of_nat 13 mod 24) with 13 in Hx. cbn [Z.leb Z.compare Pos.compare Pos.compare_cont andb] in Hx.
  change (13 - 6) with 7 in Hx.
  replace (7 * PI / 14)%R with (PI / 2)%R in Hx by lra.
  rewrite sin_PI2, Rmax_left in Hx by lra.
  pose proof (np_sum_ge_lookup c 13 1%R Hnn Hx). lra.
Qed.

(** X2. For archetype SOLAR_PPA the returned series always sums to
    [annual_volume_mwh] (over the reals), for every year and every volume:
    the curve of the solar branch has a positive total, so the degenerate
    branch of the normalisation is never taken. *)
Theorem solar_profile_conserves_volume year v w :
  exists s,
    outcome (generate_profile (init year) "SOLAR_PPA" v) w = Ok s
    /\ np_sum (values s) = v.
Proof.
  destruct (solar_profile_run year v w) as (c & Hrun & _ & _ & _ & Hpos).
  eexists. unfold outcome. rewrite Hrun. cbn [fst]. split; [reflexivity|]. cbn [values].
  unfold normalize_synthetic. destruct (Rgt_dec (np_sum c) 0) as [_|Hn]; [|lra].
  apply np_sum_normalized. lra.
Qed.

(** X3. The solar series has no seasonal variation: its value at an hour is
    its value 24 hours later, all year long. *)
Theorem solar_profile_daily_period year v w :
  exists s,
    outcome (generate_profile (init year) "SOLAR_PPA" v) w = Ok s
    /\ forall i, (i + 24 < n_hours (init year))%nat ->
         is_Some (values s !! i) /\ values s !! (i + 24)%nat = values s !! i.
Proof.
  destruct (solar_profile_run year v w) as (c & Hrun & Hl & Hlook & _ & Hpos).
  eexists. unfold outcome. rewrite Hrun. cbn [fst]. split; [reflexivity|]. cbn [values].
  intros i Hi.
  assert (Hi0 : (i < n_hours (init year))%nat) by lia.
  pose proof (init_dates_lookup year i Hi0) as Ht.
  pose proof (init_dates_lookup year (i + 24) Hi) as Ht'.
  pose proof (init_dates_hour year _ _ Ht) as Hh.
  pose proof (init_dates_hour year _ _ Ht') as Hh'.
  assert (Hsame : c !! (i + 24)%nat = c !! i).
  { rewrite (Hlook _ _ Ht), (Hlook _ _ Ht'), Hh, Hh'.
    replace (Z.of_nat (i + 24) mod 24) with (Z.of_nat i mod 24); [reflexivity|].
    rewrite Nat2Z.inj_add. change (Z.of_nat 24) with (1 * 24).
    rewrite Z.mod_add by lia. reflexivity. }
  pose proof (Hlook _ _ Ht) as Hx.
  pose proof Hx as Hx'. rewrite <- Hsame in Hx'.
  unfold normalize_synthetic. destruct (Rgt_dec (np_sum c) 0) as [_|Hn]; [|lra].
  rewrite (np_rescaled_lookup c _ _ _ _ Hx), (np_rescaled_lookup c _ _ _ _ Hx').
  split; [eexists|]; reflexivity.
Qed.

(** X4. With a non-negative annual volume the solar series peaks at 13:00:
    no hour of the year has a larger value than an hour whose hour of day is
    13, where the sine reaches 1. *)
Theorem solar_profile_peaks_at_13 year v w :
  (0 <= v)%R ->
  exists s,
    outcome (generate_profile (init year) "SOLAR_PPA" v) w = Ok s
    /\ forall i j t x y,
         dates (init year) !! j = Some t -> hour t = 13 ->
         values s !! i = Some x -> values s !! j = Some y ->
         (x <= y)%R.
Proof.
  intros Hv.
  destruct (solar_profile_run year v w) as (c & Hrun & Hl & Hlook & Hnn & Hpos).
  eexists. unfold outcome. rewrite Hrun. cbn [fst]. split; [reflexivity|]. cbn [values].
  intros i j t x y Ht Hh.
  unfold normalize_synthetic. destruct (Rgt_dec (np_sum c) 0) as [_|Hn]; [|lra].
  pose proof (Hlook _ _ Ht) as Hcj. rewrite Hh in Hcj.
  cbn [Z.leb Z.compare Pos.compare Pos.compare_cont andb] in Hcj.
  change (13 - 6) with 7 in Hcj. replace (7 * PI / 14)%R with (PI / 2)%R in Hcj by lra.
  rewrite sin_PI2, Rmax_left in Hcj by lra.
  rewrite (np_rescaled_lookup c _ _ _ _ Hcj).
  destruct (c !! i) as [z|] eqn:Hz.
  2:{ intros Hx. apply lookup_lt_Some in Hx. rewrite np_rescaled_length in Hx.
      apply lookup_ge_None in Hz. lia. }
  rewrite (np_rescaled_lookup c _ _ _ _ Hz).
  intros Hx Hy. injection Hx as <-. injection Hy as <-.
  assert (Hz1 : (z <= 1)%R).
  { pose proof (lookup_lt_Some _ _ _ Hz) as Hi. rewrite Hl in Hi.
    pose proof (init_dates_lookup year i Hi) as Hti.
    rewrite (Hlook _ _ Hti) in Hz. injection Hz as <-.
    apply Rmax_lub; [|lra].
    destruct ((6 <=? _) && (_ <=? 20)); [apply SIN_bound|lra]. }
  assert (Hinv : (0 < / np_sum c)%R) by (apply Rinv_0_lt_compat; exact Hpos).
  unfold Rdiv. apply Rmult_le_compat_r; [exact Hv|].
  apply Rmult_le_compat_r; [lra|exact Hz1].
Qed.

Lemma solar_profile_peaks_at_13_witness :
  exists s,
    outcome (generate_profile (init 2026) "SOLAR_PPA" 5000) (still_world 0 (Ok [])) = Ok s
    /\ forall i j t x y,
         dates (init 2026) !! j = Some t -> hour t = 13 ->
         values s !! i = Some x -> values s !! j = Some y ->
         (x <= y)%R.
Proof.
  apply (solar_profile_peaks_at_13 2026 5000 (still_world 0 (Ok []))). lra.
Defined.

(** ** Successive calls and the random state *)

(** X5. Two successive synthetic INDUSTRY_24_7 calls (the connector answering
    with nothing both times) do not reuse variates: with [n] the number of
    hours of the year, hour [i] of the first series is built from variate [i]
    and hour [i] of the second from variate [n + i], both with the same
    weekend factor. *)
Theorem successive_calls_use_fresh_variates year v w :
  elia_response w 14 = Ok [] ->
  let g := init year in
  exists c1 c2 s1 s2,
    outcome (generate_twice year "INDUSTRY_24_7" v) w = Ok (s1, s2)
    /\ values s1 = normalize_synthetic c1 v
    /\ values s2 = normalize_synthetic c2 v
    /\ forall i t, dates g !! i = Some t ->
         let factor := if existsb (Z.eqb (dayofweek t)) (weekend_days w)
                       then 0.85%R else 1%R in
         c1 !! i = Some ((1.0 + 0.05 * rng w i) * factor)%R
         /\ c2 !! i = Some ((1.0 + 0.05 * rng w (n_hours g + i)) * factor)%R.
Proof.
  intros He g.
  assert (Hg : n_hours g = length (dates g)) by reflexivity.
  destruct (industry_fallback_run g v w Hg He) as (c1 & Hrun1 & _ & _ & Hlook1).
  set (w' := emit (EvNormal 1.0 0.05 (n_hours g))
               (advance (n_hours g)
                  (emit (EvPrint "Using synthetic load generator (fallback).")
                     (emit (EvFetch 14)
                        (emit (EvPrint "Attempting to retrieve real Elia load profile...") w)))))
    in Hrun1.
  assert (He' : elia_response w' 14 = Ok []) by exact He.
  destruct (industry_fallback_run g v w' Hg He') as (c2 & Hrun2 & _ & _ & Hlook2).
  exists c1, c2. eexists. eexists.
  unfold outcome, generate_twice, mbind, M_bind. fold g. rewrite Hrun1, Hrun2.
  cbn [fst mret M_ret]. split; [reflexivity|]. cbn [values].
  split; [reflexivity|]. split; [reflexivity|].
  intros i t Ht. rewrite (Hlook1 i t Ht), (Hlook2 i t Ht).
  cbn [weekend_days rng w' emit advance].
  destruct (existsb (Z.eqb (dayofweek t)) (weekend_days w)); split; f_equal; lra.
Qed.

Lemma successive_calls_use_fresh_variates_witness :
  exists c1 c2 s1 s2,
    outcome (generate_twice 2026 "INDUSTRY_24_7" 15000) (still_world 0 (Ok [])) = Ok (s1, s2)
    /\ values s1 = normalize_synthetic c1 15000
    /\ values s2 = normalize_synthetic c2 15000
    /\ forall i t, dates (init 2026) !! i = Some t ->
         let factor := if existsb (Z.eqb (dayofweek t)) (weekend_days (still_world 0 (Ok [])))
                       then 0.85%R else 1%R in
         c1 !! i = Some ((1.0 + 0.05 * rng (still_world 0 (Ok [])) i) * factor)%R
         /\ c2 !! i = Some ((1.0 + 0.05 * rng (still_world 0 (Ok [])) (n_hours (init 2026) + i))
                            * factor)%R.
Proof.
  apply (successive_calls_use_fresh_variates 2026 15000 (still_world 0 (Ok []))).
  reflexivity.
Defined.

(** ** The real-data path *)

Lemma np_tile_fmap (f : R -> R) p k : np_tile (map f p) k = map f (np_tile p k).
Proof.
  induction k as [|k IH]; [reflexivity|].
  cbn [np_tile]. rewrite IH, map_app. reflexivity.
Qed.

Lemma tile_pattern_fmap g (f : R -> R) p :
  tile_pattern g (map f p) = map f (tile_pattern g p).
Proof.
  unfold tile_pattern. rewrite length_map, np_tile_fmap.
  symmetry. apply (fmap_take f).
Qed.

Lemma np_sum_map_scale c l : np_sum (map (fun x => (c * x)%R) l) = (c * np_sum l)%R.
Proof.
  induction l as [|x l IH]; cbn [map]; rewrite ?np_sum_cons.
  - unfold np_sum. cbn. lra.
  - rewrite IH. lra.
Qed.

Lemma tile_pattern_long g p :
  (n_hours g <= length p)%nat -> tile_pattern g p = take (n_hours g) p.
Proof.
  intros Hlen. unfold tile_pattern.
  destruct (n_hours g / length p + 1)%nat as [|k] eqn:Hk; [lia|].
  cbn [np_tile]. apply take_app_le. exact Hlen.
Qed.

(** X6. A real curve that is at least as long as the calendar is cut to the
    calendar: the values beyond the last hour of the year play no part, and
    the series is the cut curve, normalised. *)
Theorem real_pattern_beyond_calendar_ignored year v w1 w2 p extra :
  elia_response w1 14 = Ok p ->
  elia_response w2 14 = Ok (p ++ extra)%list ->
  (n_hours (init year) <= length p)%nat ->
  let g := init year in
  exists s,
    outcome (generate_profile g "INDUSTRY_24_7" v) w1 = Ok s
    /\ outcome (generate_profile g "INDUSTRY_24_7" v) w2 = Ok s
    /\ values s = normalize_real g (take (n_hours g) p) v.
Proof.
  intros H1 H2 Hlen g. fold g in Hlen.
  assert (Hg : n_hours g = length (dates g)) by reflexivity.
  assert (Hpos : (0 < n_hours g)%nat) by apply init_n_hours_pos.
  assert (Hp : p <> []) by (intros ->; cbn [length] in Hlen; lia).
  assert (Hp' : (p ++ extra)%list <> []) by (destruct p; [congruence|discriminate]).
  unfold outcome.
  rewrite (industry_real_run g v w1 p Hg H1 Hp).
  rewrite (industry_real_run g v w2 _ Hg H2 Hp').
  rewrite (tile_pattern_long g p) by exact Hlen.
  rewrite (tile_pattern_long g (p ++ extra)) by (rewrite length_app; lia).
  rewrite take_app_le by exact Hlen.
  eexists. cbn [fst]. repeat split; reflexivity.
Qed.

Lemma real_pattern_beyond_calendar_ignored_witness :
  let g := init 2026 in
  let p := replicate (4380 * 2) 1%R in
  exists s,
    outcome (generate_profile g "INDUSTRY_24_7" 15000) (still_world 0 (Ok p)) = Ok s
    /\ outcome (generate_profile g "INDUSTRY_24_7" 15000)
               (still_world 0 (Ok (p ++ [7; 7; 7]%R)%list)) = Ok s
    /\ values s = normalize_real g (take (n_hours g) p) 15000.
Proof.
  apply (real_pattern_beyond_calendar_ignored 2026 15000
           (still_world 0 (Ok (replicate (4380 * 2) 1%R)))
           (still_world 0 (Ok (replicate (4380 * 2) 1%R ++ [7; 7; 7]%R)%list))
           (replicate (4380 * 2) 1%R) [7; 7; 7]%R).
  - reflexivity.
  - reflexivity.
  - rewrite n_hours_2026, length_replicate. apply Nat.le_refl.
Defined.

Lemma normalize_real_scale g c t v :
  c <> 0%R ->
  normalize_real g (map (fun x => (c * x)%R) t) v = normalize_real g t v.
Proof.
  intros Hc. unfold normalize_real. rewrite np_sum_map_scale.
  destruct (Req_dec_T (c * np_sum t) 0) as [Hz|Hnz], (Req_dec_T (np_sum t) 0) as [Hz'|Hnz'].
  - reflexivity.
  - apply Rmult_integral in Hz as [Hz|Hz]; contradiction.
  - rewrite Hz', Rmult_0_r in Hnz. contradiction.
  - unfold np_mul, np_div. rewrite !map_map. apply map_ext. intros x. field. auto.
Qed.

(** X7. Only the shape of the real curve matters, not its unit: multiplying
    every value of the connector's answer by the same non-zero factor leaves
    the returned series unchanged (over the reals). *)
Theorem real_profile_ignores_pattern_scale year v w1 w2 p c :
  c <> 0%R -> p <> [] ->
  elia_response w1 14 = Ok p ->
  elia_response w2 14 = Ok (map (fun x => (c * x)%R) p) ->
  exists s,
    outcome (generate_profile (init year) "INDUSTRY_24_7" v) w1 = Ok s
    /\ outcome (generate_profile (init year) "INDUSTRY_24_7" v) w2 = Ok s.
Proof.
  intros Hc Hp H1 H2. set (g := init year).
  assert (Hg : n_hours g = length (dates g)) by reflexivity.
  assert (Hp' : map (fun x => (c * x)%R) p <> []) by (destruct p; [congruence|discriminate]).
  unfold outcome.
  rewrite (industry_real_run g v w1 p Hg H1 Hp).
  rewrite (industry_real_run g v w2 _ Hg H2 Hp').
  rewrite tile_pattern_fmap, normalize_real_scale by exact Hc.
  eexists. split; reflexivity.
Qed.

Lemma real_profile_ignores_pattern_scale_witness :
  exists s,
    outcome (generate_profile (init 2026) "INDUSTRY_24_7" 15000)
            (still_world 0 (Ok [3; 1]%R)) = Ok s
    /\ outcome (generate_profile (init 2026) "INDUSTRY_24_7" 15000)
               (still_world 0 (Ok (map (fun x => (1000 * x)%R) [3; 1]%R))) = Ok s.
Proof.
  apply (real_profile_ignores_pattern_scale 2026 15000
           (still_world 0 (Ok [3; 1]%R))
           (still_world 0 (Ok (map (fun x => (1000 * x)%R) [3; 1]%R)))
           [3; 1]%R 1000%R).
  - lra.
  - discriminate.
  - reflexivity.
  - reflexivity.
Defined.

(** X8. On the real-data path the series is linear in the requested volume:
    the series for [annual_volume_mwh] is the series for a volume of 1 with
    every value multiplied by [annual_volume_mwh] (over the reals), the
    all-zero series of a zero-sum curve included. *)
Theorem real_profile_linear_in_volume year v w p :
  elia_response w 14 = Ok p -> p <> [] ->
  exists unit_series series,
    outcome (generate_profile (init year) "INDUSTRY_24_7" 1) w = Ok unit_series
    /\ outcome (generate_profile (init year) "INDUSTRY_24_7" v) w = Ok series
    /\ values series = np_mul (values unit_series) v
    /\ index series = index unit_series.
Proof.
  intros He Hp. set (g := init year).
  assert (Hg : n_hours g = length (dates g)) by reflexivity.
  unfold outcome. rewrite !(industry_real_run g _ w p Hg He Hp).
  eexists. eexists. cbn [fst]. split; [reflexivity|]. split; [reflexivity|].
  cbn [values index]. split; [|reflexivity].
  unfold normalize_real. destruct (Req_dec_T (np_sum (tile_pattern g p)) 0) as [Hz|Hnz].
  - unfold np_mul, np_zeros. generalize (n_hours g). intros n.
    induction n as [|n IH]; [reflexivity|].
    cbn [replicate map]. rewrite <- IH. f_equal. lra.
  - unfold np_mul, np_div. rewrite !map_map. apply map_ext. intros x. field. exact Hnz.
Qed.

Lemma real_profile_linear_in_volume_witness :
  exists unit_series series,
    outcome (generate_profile (init 2026) "INDUSTRY_24_7" 1) (still_world 0 (Ok [3; 1]%R))
    = Ok unit_series
    /\ outcome (generate_profile (init 2026) "INDUSTRY_24_7" 15000) (still_world 0 (Ok [3; 1]%R))
       = Ok series
    /\ values series = np_mul (values unit_series) 15000
    /\ index series = index unit_series.
Proof.
  apply (real_profile_linear_in_volume 2026 15000 (still_world 0 (Ok [3; 1]%R)) [3; 1]%R).
  - reflexivity.
  - discriminate.
Defined.

(** X9. A real curve that spans whole weeks stays in step with the calendar:
    when its length is a multiple of 168, the value used at an hour of the
    year comes from a position of the curve that falls, in the calendar, on
    the same hour of day and the same weekday. *)
Theorem whole_weeks_pattern_keeps_hour_and_weekday year p k i ti :
  (0 < k)%nat -> length p = (168 * k)%nat ->
  dates (init year) !! i = Some ti ->
  exists tj,
    dates (init year) !! (i mod length p)%nat = Some tj
    /\ hour tj = hour ti
    /\ dayofweek tj = dayofweek ti
    /\ tile_pattern (init year) p !! i = p !! (i mod length p)%nat.
Proof.
  intros Hk Hlen Hti.
  pose proof (lookup_lt_Some _ _ _ Hti) as Hi. rewrite init_dates_length in Hi.
  assert (Hp : p <> []) by (intros ->; cbn in Hlen; lia).
  pose proof (Nat.div_mod_eq i (length p)) as Hdm.
  pose proof (Nat.mod_upper_bound i (length p) ltac:(lia)) as Hm.
  set (j := (i mod length p)%nat) in *. set (q := (i / length p)%nat) in *.
  assert (Hj : (j < n_hours (init year))%nat) by nia.
  rewrite (init_dates_lookup year i Hi) in Hti. injection Hti as <-.
  rewrite (init_dates_lookup year j Hj). eexists. split; [reflexivity|].
  assert (Hij : Z.of_nat i = Z.of_nat j + 168 * Z.of_nat (k * q)) by nia.
  generalize dependent (Z.of_nat (k * q)). intros m Hij.
  unfold hour, dayofweek, of_hours. cbn [ts_hour ts_ordinal].
  generalize (to_hours (timestamp year 1 1 0)). intros h0. rewrite Hij.
  split; [|split].
  - Z.div_mod_to_equations. lia.
  - Z.div_mod_to_equations. lia.
  - apply tile_pattern_lookup; [reflexivity|exact Hp|exact Hi].
Qed.

Lemma whole_weeks_pattern_keeps_hour_and_weekday_witness :
  exists tj,
    dates (init 2026) !! (400 mod length (replicate 336 1%R))%nat = Some tj
    /\ hour tj = hour (of_hours (to_hours (timestamp 2026 1 1 0) + 400))
    /\ dayofweek tj = dayofweek (of_hours (to_hours (timestamp 2026 1 1 0) + 400))
    /\ tile_pattern (init 2026) (replicate 336 1%R) !! 400%nat
       = replicate 336 1%R !! (400 mod length (replicate 336 1%R))%nat.
Proof.
  apply (whole_weeks_pattern_keeps_hour_and_weekday 2026 (replicate 336 1%R) 2 400).
  - lia.
  - reflexivity.
  - apply init_dates_lookup. rewrite n_hours_2026. lia.
Defined.

(** What the shaping stage takes from the random state: nothing but in the
    industrial and office branches. *)
Lemma synthetic_shape_consumes g pt w :
  n_hours g = length (dates g) ->
  let consumed :=
    if String.eqb pt "INDUSTRY_24_7" then n_hours g
    else if String.eqb pt "OFFICE_BUILDING" then mask_count (is_working_mask g)
    else 0%nat in
  exists curve w',
    synthetic_shape g pt w = (Ok curve, w')
    /\ length curve = n_hours g
    /\ forall k, rng w' k = rng w (consumed + k)%nat.
Proof.
  intros Hg. unfold synthetic_shape.
  destruct (String.eqb pt "INDUSTRY_24_7").
  { destruct (industry_shape_run g Hg w) as (c & Hr & Hl & _).
    exists c. eexists. split; [exact Hr|]. split; [exact Hl|]. intros k. reflexivity. }
  destruct (String.eqb pt "OFFICE_BUILDING").
  { destruct (office_shape_run g Hg w) as (c & Hr & Hl & _).
    exists c. eexists. split; [exact Hr|]. split; [exact Hl|]. intros k. reflexivity. }
  destruct (String.eqb pt "SOLAR_PPA").
  { destruct (solar_shape_run g Hg w) as (c & Hr & Hl & _).
    exists c, w. split; [exact Hr|]. split; [exact Hl|]. intros k. reflexivity. }
  exists (np_zeros (n_hours g)), w. split; [reflexivity|].
  split; [apply np_zeros_length|]. intros k. reflexivity.
Qed.

(** X10. How far a call moves the random state: by one variate per hour of
    the year for INDUSTRY_24_7 when the connector answers with nothing, by
    one variate per working hour for OFFICE_BUILDING, and not at all in every
    other case (real data used, connector fault, SOLAR_PPA, unrecognised
    archetype). *)
Theorem random_state_after_call year pt v w k :
  let g := init year in
  let consumed :=
    if String.eqb pt "INDUSTRY_24_7"
    then match elia_response w 14 with Ok [] => n_hours g | _ => 0%nat end
    else if String.eqb pt "OFFICE_BUILDING" then mask_count (is_working_mask g)
    else 0%nat in
  rng (world_after (generate_profile g pt v) w) k = rng w (consumed + k)%nat.
Proof.
  intros g consumed.
  assert (Hg : n_hours g = length (dates g)) by reflexivity.
  assert (Hsynth : forall w0, exists w',
            snd (synthetic_profile g pt v w0) = w'
            /\ forall k, rng w' k
                 = rng w0 ((if String.eqb pt "INDUSTRY_24_7" then n_hours g
                            else if String.eqb pt "OFFICE_BUILDING"
                                 then mask_count (is_working_mask g)
                                 else 0) + k)%nat).
  { intros w0.
    destruct (synthetic_shape_consumes g pt
                (emit (EvPrint "Using synthetic load generator (fallback).") w0) Hg)
      as (c & w' & Hs & Hl & Hrng).
    rewrite (synthetic_profile_run g Hg pt v w0 c w' Hs Hl).
    exists w'. split; [reflexivity|exact Hrng]. }
  unfold world_after, consumed.
  destruct (generate_profile_run g pt v w)
    as [(Hpt & e & He & Hrun)|[(Hpt & p & He & Hp & Hrun)|[(Hpt & He & Hrun)|(Hpt & Hrun)]]].
  - subst pt. rewrite Hrun, He. reflexivity.
  - subst pt. rewrite Hrun, (real_data_profile_run g Hg) by exact Hp. rewrite He.
    destruct p; [congruence|reflexivity].
  - rewrite Hrun, He.
    destruct (Hsynth (emit (EvFetch 14)
                (emit (EvPrint "Attempting to retrieve real Elia load profile...") w)))
      as (w' & -> & Hrng).
    rewrite Hrng. subst pt. reflexivity.
  - rewrite Hrun. destruct (Hsynth w) as (w' & -> & Hrng). rewrite Hrng.
    apply String.eqb_neq in Hpt. rewrite Hpt. reflexivity.
Qed.

(** * Further properties of the calendar *)

Lemma of_hours_to_hours t : 0 <= ts_hour t < 24 -> of_hours (to_hours t) = t.
Proof.
  intros Hh. destruct t as [o h]. unfold of_hours, to_hours. cbn [ts_ordinal ts_hour] in *.
  f_equal; Z.div_mod_to_equations; lia.
Qed.

Lemma to_hours_of_hours h : to_hours (of_hours h) = h.
Proof.
  unfold of_hours, to_hours. cbn [ts_ordinal ts_hour]. Z.div_mod_to_equations. lia.
Qed.

Lemma days_before_next_year y :
  days_before_year (y + 1) = days_before_year y + (if is_leap y then 366 else 365).
Proof.
  unfold days_before_year, is_leap.
  replace (y + 1 - 1) with y by lia.
  destruct (Z.eqb_spec (y mod 4) 0), (Z.eqb_spec (y mod 100) 0), (Z.eqb_spec (y mod 400) 0);
    cbn [negb andb orb]; Z.div_mod_to_equations; lia.
Qed.

(** The calendar of a year starts on January 1st at 00:00 and ends on
    December 31st at 23:00, and its i-th entry is [i] hours after the
    first. *)
Lemma init_calendar_hourly year :
  dates (init year) !! 0%nat = Some (timestamp year 1 1 0)
  /\ last (dates (init year)) = Some (timestamp year 12 31 23)
  /\ forall i t, dates (init year) !! i = Some t ->
       to_hours t = to_hours (timestamp year 1 1 0) + Z.of_nat i
       /\ hour t = Z.of_nat i mod 24
       /\ dayofweek t = (dayofweek (timestamp year 1 1 0) + Z.of_nat i / 24) mod 7.
Proof.
  pose proof (init_n_hours year) as Hn.
  assert (Hpos : (0 < n_hours (init year))%nat) by apply init_n_hours_pos.
  split; [|split].
  - rewrite init_dates_lookup by exact Hpos.
    rewrite Z.add_0_r. f_equal. apply of_hours_to_hours. cbn. lia.
  - rewrite last_lookup, init_dates_length, init_dates_lookup by lia. f_equal.
    rewrite <- (of_hours_to_hours (timestamp year 12 31 23)) by (cbn; lia). f_equal.
    pose proof (year_span year) as Hspan. destruct (is_leap year); lia.
  - intros i t Ht. pose proof (lookup_lt_Some _ _ _ Ht) as Hi. rewrite init_dates_length in Hi.
    pose proof (init_dates_hour year i t Ht) as Hh.
    rewrite init_dates_lookup in Ht by exact Hi. injection Ht as <-.
    split; [apply to_hours_of_hours|]. split; [exact Hh|].
    unfold dayofweek, of_hours, to_hours, timestamp. cbn [ts_ordinal ts_hour].
    generalize (ymd2ord year 1 1). intros o. Z.div_mod_to_equations. lia.
Qed.

(** January 1st of a year comes one hour, and one weekday, after December
    31st 23:00 of the year before. *)
Lemma new_year_follows_last_hour year :
  to_hours (timestamp (year + 1) 1 1 0) = to_hours (timestamp year 12 31 23) + 1
  /\ dayofweek (timestamp (year + 1) 1 1 0)
     = (dayofweek (timestamp year 12 31 23) + 1) mod 7.
Proof.
  unfold dayofweek, to_hours, timestamp, ymd2ord, days_before_month.
  cbn [ts_ordinal ts_hour].
  change (Z.to_nat 12) with 12%nat. change (Z.to_nat 1) with 1%nat.
  cbn [nth Z.ltb Z.compare Pos.compare Pos.compare_cont andb].
  rewrite days_before_next_year.
  destruct (is_leap year); cbn [andb]; split; try lia; Z.div_mod_to_equations; lia.
Qed.

(** X11. For a year from 1678 to 2261 (the years whose text pandas reads as
    a date of that year), the calendar of the generator built by [__init__]
    starts on January 1st at 00:00 and ends on December 31st at 23:00; its
    i-th entry is [i] hours after the first, so that entries are one hour
    apart and never repeat, has hour of day [i mod 24], and falls [i / 24]
    weekdays after January 1st. *)
Theorem calendar_runs_hourly_over_the_year year :
  1678 <= year <= 2261 ->
  exists g,
    LoadCurveGenerator_of_year year = Some g
    /\ n_hours g = length (dates g)
    /\ dates g !! 0%nat = Some (timestamp year 1 1 0)
    /\ last (dates g) = Some (timestamp year 12 31 23)
    /\ forall i t, dates g !! i = Some t ->
         to_hours t = to_hours (timestamp year 1 1 0) + Z.of_nat i
         /\ hour t = Z.of_nat i mod 24
         /\ dayofweek t = (dayofweek (timestamp year 1 1 0) + Z.of_nat i / 24) mod 7.
Proof.
  intros Hy. exists (init year).
  split; [apply of_year_readable; exact Hy|]. split; [reflexivity|].
  apply init_calendar_hourly.
Qed.

Lemma calendar_runs_hourly_over_the_year_witness :
  exists g,
    LoadCurveGenerator_of_year 2026 = Some g
    /\ n_hours g = length (dates g)
    /\ dates g !! 0%nat = Some (timestamp 2026 1 1 0)
    /\ last (dates g) = Some (timestamp 2026 12 31 23)
    /\ forall i t, dates g !! i = Some t ->
         to_hours t = to_hours (timestamp 2026 1 1 0) + Z.of_nat i
         /\ hour t = Z.of_nat i mod 24
         /\ dayofweek t = (dayofweek (timestamp 2026 1 1 0) + Z.of_nat i / 24) mod 7.
Proof. apply (calendar_runs_hourly_over_the_year 2026). lia. Defined.

(** X12. The calendars of the generators of two consecutive years, both
    from 1678 to 2261, join: the first entry of the calendar built for
    [year + 1] comes one hour after the last entry of the calendar built for
    [year], whether [year] is a leap year or not, and its weekday follows the
    weekday of that last entry. *)
Theorem calendars_of_consecutive_years_join year :
  1678 <= year -> year + 1 <= 2261 ->
  exists g g' t_last t_first,
    LoadCurveGenerator_of_year year = Some g
    /\ LoadCurveGenerator_of_year (year + 1) = Some g'
    /\ last (dates g) = Some t_last
    /\ dates g' !! 0%nat = Some t_first
    /\ to_hours t_first = to_hours t_last + 1
    /\ dayofweek t_first = (dayofweek t_last + 1) mod 7.
Proof.
  intros Hlow Hhigh.
  exists (init year), (init (year + 1)),
         (timestamp year 12 31 23), (timestamp (year + 1) 1 1 0).
  split; [apply of_year_readable; lia|]. split; [apply of_year_readable; lia|].
  split; [apply init_calendar_hourly|]. split; [apply init_calendar_hourly|].
  apply new_year_follows_last_hour.
Qed.

Lemma calendars_of_consecutive_years_join_witness :
  exists g g' t_last t_first,
    LoadCurveGenerator_of_year 2026 = Some g
    /\ LoadCurveGenerator_of_year (2026 + 1) = Some g'
    /\ last (dates g) = Some t_last
    /\ dates g' !! 0%nat = Some t_first
    /\ to_hours t_first = to_hours t_last + 1
    /\ dayofweek t_first = (dayofweek t_last + 1) mod 7.
Proof. apply (calendars_of_consecutive_years_join 2026); lia. Defined.

(** * Further properties of the export *)

(** A series the generator returns is indexed by the calendar and has one
    value per entry. *)
Lemma generate_profile_series g pt v w s :
  n_hours g = length (dates g) ->
  outcome (generate_profile g pt v) w = Ok s ->
  index s = dates g /\ length (values s) = n_hours g.
Proof.
  intros Hg. unfold outcome.
  destruct (generate_profile_run g pt v w)
    as [(Hpt & e & He & Hrun)|[(Hpt & p & He & Hp & Hrun)|[(Hpt & He & Hrun)|(Hpt & Hrun)]]];
    rewrite Hrun.
  - discriminate.
  - rewrite (real_data_profile_run g Hg) by exact Hp. cbn [fst]. intros [= <-].
    cbn [index values]. split; [reflexivity|].
    apply normalize_real_length. apply tile_pattern_length; assumption.
  - destruct (synthetic_profile_total g Hg pt v
                (emit (EvFetch 14)
                   (emit (EvPrint "Attempting to retrieve real Elia load profile...") w)))
      as (c & w' & evs & _ & Hl & _ & Hsp & _).
    rewrite Hsp. cbn [fst]. intros [= <-]. cbn [index values].
    split; [reflexivity|]. rewrite normalize_synthetic_length. exact Hl.
  - destruct (synthetic_profile_total g Hg pt v w) as (c & w' & evs & _ & Hl & _ & Hsp & _).
    rewrite Hsp. cbn [fst]. intros [= <-]. cbn [index values].
    split; [reflexivity|]. rewrite normalize_synthetic_length. exact Hl.
Qed.

(** The call for a string that is no archetype, as an equation. *)
Lemma unknown_archetype_run g pt v w :
  n_hours g = length (dates g) ->
  pt <> "INDUSTRY_24_7" -> pt <> "OFFICE_BUILDING" -> pt <> "SOLAR_PPA" ->
  generate_profile g pt v w
  = (Ok {| values := np_zeros (n_hours g); index := dates g; name := "Synthetic Load" |},
     emit (EvPrint "Using synthetic load generator (fallback).") w).
Proof.
  intros Hg Hi Ho Hs. rewrite generate_profile_other by exact Hi.
  apply String.eqb_neq in Hi, Ho, Hs.
  assert (Hshape : synthetic_shape g pt
                     (emit (EvPrint "Using synthetic load generator (fallback).") w)
                   = (Ok (np_zeros (n_hours g)),
                      emit (EvPrint "Using synthetic load generator (fallback).") w))
    by (unfold synthetic_shape; rewrite Hi, Ho, Hs; reflexivity).
  rewrite (synthetic_profile_run g Hg pt v w _ _ Hshape (np_zeros_length _)).
  unfold normalize_synthetic. rewrite np_sum_zeros.
  destruct (Rgt_dec 0 0) as [Hgt|_]; [lra|reflexivity].
Qed.

Lemma first_week_of_calendar year :
  take 168 (dates (init year))
  = date_range (timestamp year 1 1 0) (timestamp year 1 7 23).
Proof.
  pose proof (init_n_hours year) as Hn.
  unfold init in *. cbn [dates n_hours] in *. rewrite date_range_length in Hn.
  unfold date_range at 1. rewrite <- fmap_take, take_seq.
  replace (168 `min` Z.to_nat _)%nat with 168%nat by (destruct (is_leap year); lia).
  unfold date_range. f_equal. f_equal.
  unfold to_hours, timestamp, ymd2ord. cbn [ts_ordinal ts_hour]. lia.
Qed.

(** The export of a series returned over the calendar of a year. *)
Lemma init_chart_first_week year pt v w s :
  outcome (generate_profile (init year) pt v) w = Ok s ->
  let tab := export_pricing_to_excel s in
  Z.of_nat (length (data_rows (fst tab))) = (if is_leap year then 8784 else 8760)
  /\ charted_categories tab
     = [map CDate (date_range (timestamp year 1 1 0) (timestamp year 1 7 23))]
  /\ charted_values tab = [map CNumber (take 168 (values s))]
  /\ length (take 168 (values s)) = 168%nat.
Proof.
  intros Hs tab. subst tab.
  destruct (generate_profile_series (init year) pt v w s eq_refl Hs) as (Hidx & Hlen).
  pose proof (init_n_hours year) as Hn.
  assert (Hlt : length (take 168 (values s)) = length (take 168 (index s)))
    by (rewrite !length_take, Hidx, Hlen; reflexivity).
  split.
  { rewrite data_rows_to_excel, length_zip_with, Hidx, Hlen, <- init_dates_length.
    rewrite Nat.min_id, init_dates_length. exact Hn. }
  rewrite <- first_week_of_calendar, <- Hidx.
  split; [|split].
  - unfold charted_categories, range_cells, export_pricing_to_excel.
    cbn [fst snd chart_series map series_values categories first_row last_row
         range_column range_sheet sheet_name cells].
    rewrite String.eqb_refl.
    change (S 169 - 2)%nat with 168%nat. change (2 - 1)%nat with 1%nat.
    unfold to_excel, to_frame. cbn [drop df_index df_values index_name column_name].
    rewrite drop_0, zip_with_take. f_equal. apply column_A_of_rows. exact Hlt.
  - unfold charted_values, range_cells, export_pricing_to_excel.
    cbn [fst snd chart_series map series_values categories first_row last_row
         range_column range_sheet sheet_name cells].
    rewrite String.eqb_refl.
    change (S 169 - 2)%nat with 168%nat. change (2 - 1)%nat with 1%nat.
    unfold to_excel, to_frame. cbn [drop df_index df_values index_name column_name].
    rewrite drop_0, zip_with_take. f_equal. apply column_B_of_rows. exact Hlt.
  - rewrite length_take, Hlen. destruct (is_leap year); lia.
Qed.

(** X13. When the series a call of [generate_profile] returned for a year
    from 1678 to 2261 (the years whose text pandas reads as a date of that
    year) is exported, the hourly sheet holds the whole year (8760 or 8784
    data rows) and the chart plots exactly 168 points: the values of the first
    seven days, against the timestamps from January 1st 00:00 to January 7th
    23:00. *)
Theorem exported_chart_shows_first_seven_days year g pt v w s :
  1678 <= year <= 2261 ->
  LoadCurveGenerator_of_year year = Some g ->
  outcome (generate_profile g pt v) w = Ok s ->
  let tab := export_pricing_to_excel s in
  Z.of_nat (length (data_rows (fst tab))) = (if is_leap year then 8784 else 8760)
  /\ charted_categories tab
     = [map CDate (date_range (timestamp year 1 1 0) (timestamp year 1 7 23))]
  /\ charted_values tab = [map CNumber (take 168 (values s))]
  /\ length (take 168 (values s)) = 168%nat.
Proof.
  intros Hy Hgen. rewrite (of_year_readable year Hy) in Hgen. injection Hgen as <-.
  apply init_chart_first_week.
Qed.

Lemma exported_chart_shows_first_seven_days_witness :
  let s := {| values := np_zeros (n_hours (init 2026)); index := dates (init 2026);
              name := "Synthetic Load" |} in
  let tab := export_pricing_to_excel s in
  Z.of_nat (length (data_rows (fst tab))) = 8760
  /\ charted_categories tab
     = [map CDate (date_range (timestamp 2026 1 1 0) (timestamp 2026 1 7 23))]
  /\ charted_values tab = [map CNumber (take 168 (values s))]
  /\ length (take 168 (values s)) = 168%nat.
Proof.
  apply (exported_chart_shows_first_seven_days 2026 (init 2026) "WIND_PPA" 5000
           (still_world 0 (Raise EliaFault))).
  - lia.
  - reflexivity.
  - unfold outcome.
    rewrite (unknown_archetype_run (init 2026) "WIND_PPA" 5000
               (still_world 0 (Raise EliaFault)) eq_refl)
      by discriminate.
    reflexivity.
Defined.

(** ** The summary and cost sheets *)

Section GridFacts.

Lemma write_row_lookup (ws : Grid) r c cells r' c' :
  write_row ws r c cells !! (r', c')
  = if decide (r' = r /\ (c <= c')%nat /\ (c' < c + length cells)%nat)
    then cells !! (c' - c)%nat
    else ws !! (r', c').
Proof.
  revert ws c. induction cells as [|v cells IH]; intros ws c; cbn [write_row length].
  - case_decide as Hd; [lia|reflexivity].
  - rewrite IH. unfold worksheet_write.
    destruct (decide (r' = r /\ (S c <= c')%nat /\ (c' < S c + length cells)%nat)) as [Hin|Hout].
    + rewrite decide_True by lia.
      replace (c' - c)%nat with (S (c' - S c)) by lia. reflexivity.
    + destruct (decide (r' = r /\ c' = c)) as [[-> ->]|Hne].
      * rewrite lookup_insert_eq, decide_True by lia.
        replace (c - c)%nat with 0%nat by lia. reflexivity.
      * rewrite lookup_insert_ne by (intros [= <- <-]; tauto).
        rewrite decide_False by lia. reflexivity.
Qed.

Lemma worksheet_write_plain_lookup (ws : Grid) r c v r' c' :
  worksheet_write_plain ws r c v !! (r', c')
  = match (if decide (r' = r /\ c' = c) then kept v else None) with
    | Some x => Some x
    | None => ws !! (r', c')
    end.
Proof.
  assert (Hw : worksheet_write ws r c v !! (r', c')
               = if decide (r' = r /\ c' = c) then Some v else ws !! (r', c')).
  { unfold worksheet_write. case_decide as Hd.
    - destruct Hd as [-> ->]. apply lookup_insert_eq.
    - apply lookup_insert_ne. intros [= <- <-]. tauto. }
  destruct v as [t|x|t]; cbn [worksheet_write_plain kept];
    [destruct t as [|ch t]|..]; rewrite ?Hw; case_decide; reflexivity.
Qed.

(** Reading a sheet after a body row was written: a cell of the row if one
    was kept at that place, what the sheet held before otherwise. *)
Lemma write_row_plain_lookup (ws : Grid) r c cells r' c' :
  write_row_plain ws r c cells !! (r', c')
  = match (if decide (r' = r /\ (c <= c')%nat)
           then cells !! (c' - c)%nat ≫= kept
           else None) with
    | Some v => Some v
    | None => ws !! (r', c')
    end.
Proof.
  revert ws c. induction cells as [|v cells IH]; intros ws c; cbn [write_row_plain].
  - case_decide; rewrite ?lookup_nil; reflexivity.
  - rewrite IH, worksheet_write_plain_lookup.
    destruct (decide (r' = r /\ (S c <= c')%nat)) as [Hin|Hout].
    + rewrite (decide_True (P := r' = r /\ (c <= c')%nat)) by lia.
      replace (c' - c)%nat with (S (c' - S c)) by lia. cbn [lookup list_lookup].
      destruct (cells !! (c' - S c)%nat ≫= kept); [reflexivity|].
      rewrite decide_False by lia. reflexivity.
    + destruct (decide (r' = r /\ c' = c)) as [[-> ->]|Hne].
      * rewrite (decide_True (P := r = r /\ (c <= c)%nat)) by lia.
        replace (c - c)%nat with 0%nat by lia. reflexivity.
      * rewrite (decide_False (P := r' = r /\ (c <= c')%nat)) by lia. reflexivity.
Qed.

(** Reading a sheet after rows were written: a cell of the rows if one was
    kept at that place, what the sheet held before otherwise. *)
Lemma write_rows_lookup (ws : Grid) r rows r' c' :
  write_rows ws r rows !! (r', c')
  = match (if decide (r <= r')%nat
           then rows !! (r' - r)%nat
                  ≫= (fun cells : list Cell => cells !! c' ≫= kept)
           else None) with
    | Some v => Some v
    | None => ws !! (r', c')
    end.
Proof.
  revert ws r. induction rows as [|cells rows IH]; intros ws r; cbn [write_rows].
  - case_decide; rewrite ?lookup_nil; reflexivity.
  - rewrite IH, write_row_plain_lookup.
    destruct (decide (S r <= r')%nat) as [Hlow|Hhigh].
    + rewrite (decide_True (P := (r <= r')%nat)) by lia.
      replace (r' - r)%nat with (S (r' - S r)) by lia. cbn [lookup list_lookup].
      destruct (rows !! (r' - S r)%nat ≫= _); [reflexivity|].
      rewrite decide_False by lia. reflexivity.
    + destruct (decide (r' = r)) as [->|Hne].
      * rewrite (decide_True (P := (r <= r)%nat)) by lia.
        replace (r - r)%nat with 0%nat by lia. cbn [lookup list_lookup mbind option_bind].
        rewrite decide_True by lia. rewrite Nat.sub_0_r. reflexivity.
      * rewrite (decide_False (P := (r <= r')%nat)) by lia.
        rewrite decide_False by lia. reflexivity.
Qed.

(** Reading a sheet written by [to_excel] with [index=False]. *)
Lemma to_excel_at_lookup startrow df r' c' :
  to_excel_at startrow df !! (r', c')
  = match (if decide (S startrow <= r')%nat
           then frame_rows df !! (r' - S startrow)%nat
                  ≫= (fun cells : list Cell => cells !! c' ≫= kept)
           else None) with
    | Some v => Some v
    | None => if decide (r' = startrow)
              then CText <$> frame_columns df !! c'
              else None
    end.
Proof.
  unfold to_excel_at. rewrite write_rows_lookup, write_row_lookup, lookup_empty.
  destruct (if decide (S startrow <= r')%nat then _ else None); [reflexivity|].
  rewrite length_map, Nat.sub_0_r.
  destruct (decide (r' = startrow)) as [->|Hne].
  - destruct (decide (startrow = startrow /\ (0 <= c')%nat
                      /\ (c' < 0 + length (frame_columns df))%nat)) as [Hin|Hout].
    + apply list_lookup_fmap.
    + rewrite (lookup_ge_None_2 (frame_columns df) c') by lia. reflexivity.
  - rewrite decide_False by tauto. reflexivity.
Qed.

(** Under the title and the column names, the sheet holds the cells of the
    frame that were kept. *)
Lemma titled_rows_lookup (df : PlainFrame) title i j :
  worksheet_write (to_excel_at 1 df) 0 0 title !! (2 + i, j)%nat
  = frame_rows df !! i ≫= (fun cells : list Cell => cells !! j ≫= kept).
Proof.
  unfold worksheet_write. rewrite lookup_insert_ne by discriminate.
  rewrite to_excel_at_lookup, decide_True by lia.
  replace (2 + i - 2)%nat with i by lia.
  destruct (frame_rows df !! i ≫= _); [reflexivity|].
  rewrite decide_False by lia. reflexivity.
Qed.

End GridFacts.

(** X14. In the cost sheet, [to_excel] with [startrow=1] and the title
    written afterwards do not collide: the title is alone in row 1 of the
    sheet (cell A1), the column names are in row 2, and row [i] of
    [df_costs] is in row [i + 3] of the sheet: every cell of the frame that is
    not the empty string is found there, an empty string leaves its place
    empty (it is written without a format, and xlsxwriter drops it), and so
    does a place the frame has no cell for. *)
Theorem costs_sheet_layout (df : PlainFrame) :
  costs_sheet df !! (0, 0)%nat = Some (CText "DÉTAIL DE LA STRUCTURE DE PRIX (€/MWh)")
  /\ (forall j, j <> 0%nat -> costs_sheet df !! (0, j)%nat = None)
  /\ (forall j, costs_sheet df !! (1, j)%nat = CText <$> frame_columns df !! j)
  /\ (forall i j v,
        frame_rows df !! i ≫= (fun cells : list Cell => cells !! j) = Some v ->
        v <> CText "" -> costs_sheet df !! (2 + i, j)%nat = Some v)
  /\ (forall i j,
        frame_rows df !! i ≫= (fun cells : list Cell => cells !! j) = Some (CText "") ->
        costs_sheet df !! (2 + i, j)%nat = None)
  /\ (forall i j,
        frame_rows df !! i ≫= (fun cells : list Cell => cells !! j) = None ->
        costs_sheet df !! (2 + i, j)%nat = None).
Proof.
  assert (Hrows : forall i j,
            costs_sheet df !! (2 + i, j)%nat
            = (frame_rows df !! i ≫= (fun cells : list Cell => cells !! j)) ≫= kept).
  { intros i j. unfold costs_sheet. rewrite titled_rows_lookup.
    destruct (frame_rows df !! i) as [cells|]; reflexivity. }
  split; [apply lookup_insert_eq|].
  split; [|split; [|split; [|split]]].
  - intros j Hj. unfold costs_sheet, worksheet_write.
    rewrite lookup_insert_ne by (intros [= <-]; congruence).
    rewrite to_excel_at_lookup, decide_False, decide_False by lia. reflexivity.
  - intros j. unfold costs_sheet, worksheet_write.
    rewrite lookup_insert_ne by discriminate.
    rewrite to_excel_at_lookup, decide_False, decide_True by lia. reflexivity.
  - intros i j v Hv Hne. rewrite Hrows, Hv. cbn [mbind option_bind].
    destruct v as [t|x|t]; [destruct t as [|ch t]|..]; try reflexivity.
    congruence.
  - intros i j Hv. rewrite Hrows, Hv. reflexivity.
  - intros i j Hv. rewrite Hrows, Hv. reflexivity.
Qed.

Lemma costs_sheet_layout_witness :
  let df := df_costs [("", 2.5%R); ("Margin", 2.5%R)] in
  costs_sheet df !! (2, 0)%nat = None
  /\ costs_sheet df !! (2, 1)%nat = Some (CNumber 2.5)
  /\ costs_sheet df !! (3, 0)%nat = Some (CText "Margin")
  /\ costs_sheet df !! (2, 2)%nat = None.
Proof.
  intros df.
  destruct (costs_sheet_layout df) as (_ & _ & _ & Hkept & Hblank & Hnone).
  split; [apply (Hblank 0%nat 0%nat); reflexivity|].
  split; [apply (Hkept 0%nat 1%nat); [reflexivity|discriminate]|].
  split; [apply (Hkept 1%nat 0%nat); [reflexivity|discriminate]|].
  apply (Hnone 0%nat 2%nat). reflexivity.
Defined.

Lemma summary_table_lookup volume mp fp r c :
  (r <> 0%nat \/ c <> 0%nat) ->
  worksheet_write (to_excel_at 1 (df_summary volume mp fp)) 0 0
    (CText "OFFRE DE FOURNITURE D'ÉLECTRICITÉ - SYNTHÈSE") !! (2 + r, c)%nat
  = frame_rows (df_summary volume mp fp) !! r
      ≫= (fun cells : list Cell => cells !! c ≫= kept).
Proof. intros _. apply titled_rows_lookup. Qed.

(** The two cells written by hand at the end of the summary sheet repeat
    what the table holds. *)
Lemma summary_sheet_layout_eq volume mp fp :
  summary_sheet volume mp fp
  = worksheet_write (to_excel_at 1 (df_summary volume mp fp)) 0 0
      (CText "OFFRE DE FOURNITURE D'ÉLECTRICITÉ - SYNTHÈSE").
Proof.
  unfold summary_sheet.
  set (titled := worksheet_write (to_excel_at 1 (df_summary volume mp fp)) 0 0 _).
  assert (H61 : titled !! (6, 1)%nat = Some (CNumber fp))
    by (apply (summary_table_lookup volume mp fp 4 1); lia).
  assert (H71 : titled !! (7, 1)%nat = Some (CNumber (fp * volume)))
    by (apply (summary_table_lookup volume mp fp 5 1); lia).
  unfold worksheet_write. rewrite (insert_id titled (6, 1)%nat) by exact H61.
  apply insert_id. exact H71.
Qed.

(** X15. In the summary sheet the two cells written by hand at the end,
    [(6, 1)] and [(7, 1)], are the cells of the rows labelled
    'PRIX VENTE FINAL (€/MWh)' and 'Budget Total Estimé (€)', and they
    receive the values [to_excel] had already put there (the final price and
    the final price times the volume): the hand-written cells change no
    content of the sheet. *)
Theorem summary_sheet_highlighted_cells volume mp fp :
  let ws := summary_sheet volume mp fp in
  ws !! (6, 0)%nat = Some (CText "PRIX VENTE FINAL (€/MWh)")
  /\ ws !! (6, 1)%nat = Some (CNumber fp)
  /\ ws !! (7, 0)%nat = Some (CText "Budget Total Estimé (€)")
  /\ ws !! (7, 1)%nat = Some (CNumber (fp * volume))
  /\ ws = worksheet_write (to_excel_at 1 (df_summary volume mp fp)) 0 0
            (CText "OFFRE DE FOURNITURE D'ÉLECTRICITÉ - SYNTHÈSE").
Proof.
  intros ws. subst ws. rewrite summary_sheet_layout_eq.
  split; [apply (summary_table_lookup volume mp fp 4 0); lia|].
  split; [apply (summary_table_lookup volume mp fp 4 1); lia|].
  split; [apply (summary_table_lookup volume mp fp 5 0); lia|].
  split; [apply (summary_table_lookup volume mp fp 5 1); lia|].
  reflexivity.
Qed.

(** X16. The summary sheet shows 0 for a market price the dictionary does
    not hold and the dictionary's value otherwise (cells B4 and B5 for
    'CAL_BASE' and 'CAL_PEAK'); the row between the prices and the final
    price, whose label is the empty string and whose value is missing, leaves
    no cell in the sheet (A6 and B6 are absent); no other key of the
    dictionary has any influence on the sheet. *)
Theorem summary_sheet_market_prices volume mp fp :
  let ws := summary_sheet volume mp fp in
  (mp !! "CAL_BASE" = None -> ws !! (3, 1)%nat = Some (CNumber 0))
  /\ (forall x, mp !! "CAL_BASE" = Some x -> ws !! (3, 1)%nat = Some (CNumber x))
  /\ (mp !! "CAL_PEAK" = None -> ws !! (4, 1)%nat = Some (CNumber 0))
  /\ (forall x, mp !! "CAL_PEAK" = Some x -> ws !! (4, 1)%nat = Some (CNumber x))
  /\ ws !! (5, 0)%nat = None
  /\ ws !! (5, 1)%nat = None
  /\ (forall mp' : gmap string R,
        mp' !! "CAL_BASE" = mp !! "CAL_BASE" -> mp' !! "CAL_PEAK" = mp !! "CAL_PEAK" ->
        summary_sheet volume mp' fp = ws).
Proof.
  intros ws.
  subst ws. rewrite (summary_sheet_layout_eq volume mp fp).
  assert (H31 : forall m : gmap string R,
            worksheet_write (to_excel_at 1 (df_summary volume m fp)) 0 0
              (CText "OFFRE DE FOURNITURE D'ÉLECTRICITÉ - SYNTHÈSE") !! (3, 1)%nat
            = Some (CNumber (default 0%R (m !! "CAL_BASE"))))
    by (intros m; apply (summary_table_lookup volume m fp 1 1); lia).
  assert (H41 : forall m : gmap string R,
            worksheet_write (to_excel_at 1 (df_summary volume m fp)) 0 0
              (CText "OFFRE DE FOURNITURE D'ÉLECTRICITÉ - SYNTHÈSE") !! (4, 1)%nat
            = Some (CNumber (default 0%R (m !! "CAL_PEAK"))))
    by (intros m; apply (summary_table_lookup volume m fp 2 1); lia).
  rewrite H31, H41.
  split; [intros ->; reflexivity|]. split; [intros x ->; reflexivity|].
  split; [intros ->; reflexivity|]. split; [intros x ->; reflexivity|].
  split; [apply (summary_table_lookup volume mp fp 3 0); lia|].
  split; [apply (summary_table_lookup volume mp fp 3 1); lia|].
  intros mp' Hb Hp. rewrite (summary_sheet_layout_eq volume mp' fp).
  unfold df_summary. rewrite Hb, Hp. reflexivity.
Qed.

Lemma summary_sheet_market_prices_witness :
  summary_sheet 15000 (<["CAL_PEAK" := 110.0%R]> ∅) 120 !! (3, 1)%nat = Some (CNumber 0)
  /\ summary_sheet 15000 (<["CAL_PEAK" := 110.0%R]> ∅) 120 !! (4, 1)%nat
     = Some (CNumber 110.0).
Proof.
  destruct (summary_sheet_market_prices 15000 (<["CAL_PEAK" := 110.0%R]> ∅) 120)
    as (Hbase & _ & _ & Hpeak & _).
  split; [apply Hbase|apply Hpeak]; reflexivity.
Defined.

Lemma costs_rows_lookup (df : PlainFrame) i j :
  costs_sheet df !! (2 + i, j)%nat
  = frame_rows df !! i ≫= (fun cells : list Cell => cells !! j ≫= kept).
Proof. unfold costs_sheet. apply titled_rows_lookup. Qed.

Lemma cost_items_sum SETTINGS wap profiling volume_risk :
  np_sum (map snd (cost_items SETTINGS wap profiling volume_risk))
  = final_price SETTINGS wap profiling volume_risk.
Proof.
  unfold cost_items, final_price, np_sum. cbn [map snd foldr]. lra.
Qed.

(** * The cost stack of the application *)

(** X17. The six items of the cost structure shown to the user (and given
    to the exporter as [df_costs]) add up to the final price: nothing enters
    the price that is not in the breakdown (over the reals). *)
Theorem cost_items_add_up_to_final_price SETTINGS wap profiling volume_risk :
  np_sum (map snd (cost_items SETTINGS wap profiling volume_risk))
  = final_price SETTINGS wap profiling volume_risk.
Proof.
  unfold cost_items, final_price, grid_fees, taxes, margin, np_sum.
  cbn [map snd foldr]. lra.
Qed.

Lemma column_numbers_of_costs (items : list (string * R)) :
  column_numbers (costs_sheet (df_costs items)) 1 2 (length items) = map snd items.
Proof.
  unfold column_numbers.
  assert (Hcell : forall k, costs_sheet (df_costs items) !! (2 + k, 1)%nat
                            = (fun item => CNumber (snd item)) <$> items !! k).
  { intros k. rewrite (costs_rows_lookup (df_costs items) k 1).
    unfold df_costs. cbn [frame_rows]. rewrite list_lookup_fmap.
    destruct (items !! k); reflexivity. }
  revert Hcell. generalize (costs_sheet (df_costs items)). intros ws Hcell.
  assert (Hgen : forall first l,
            (forall k, ws !! (first + k, 1)%nat
                       = (fun item : string * R => CNumber (snd item)) <$> l !! k) ->
            omap (fun row => match ws !! (row, 1%nat) with
                             | Some (CNumber x) => Some x
                             | _ => None
                             end) (seq first (length l)) = map snd l).
  { intros first l. revert first. induction l as [|item l IH]; intros first Hl; [reflexivity|].
    cbn [length seq omap list_omap map].
    pose proof (Hl 0%nat) as H0. rewrite Nat.add_0_r in H0. cbn in H0. rewrite H0.
    f_equal. apply IH. intros k. specialize (Hl (S k)).
    replace (first + S k)%nat with (S first + k)%nat in Hl by lia. exact Hl. }
  apply Hgen. exact Hcell.
Qed.

(** X18. In the exported workbook the numbers of column B of the cost sheet
    (rows 3 to 8) are the six cost items, and they add up to the final price
    shown in the highlighted cell B7 of the summary sheet, whose cell B8 is
    that price times the annual volume. *)
Theorem exported_costs_add_up_to_exported_price SETTINGS wap profiling volume_risk
    load_curve annual_volume MARKET_PRICES :
  let workbook := export_quote SETTINGS wap profiling volume_risk
                    load_curve annual_volume MARKET_PRICES in
  let summary := fst (fst workbook) in
  let costs := snd (fst workbook) in
  exists price,
    summary !! (6, 1)%nat = Some (CNumber price)
    /\ summary !! (7, 1)%nat = Some (CNumber (price * annual_volume))
    /\ length (column_numbers costs 1 2 6) = 6%nat
    /\ np_sum (column_numbers costs 1 2 6) = price
    /\ costs !! (8, 1)%nat = None.
Proof.
  intros workbook summary costs. subst summary costs workbook. unfold export_quote.
  cbn [fst snd].
  exists (final_price SETTINGS wap profiling volume_risk).
  rewrite summary_sheet_layout_eq.
  split; [apply (summary_table_lookup _ _ _ 4 1); lia|].
  split; [apply (summary_table_lookup _ _ _ 5 1); lia|].
  pose proof (column_numbers_of_costs (cost_items SETTINGS wap profiling volume_risk)) as Hcol.
  change (length (cost_items SETTINGS wap profiling volume_risk)) with 6%nat in Hcol.
  rewrite Hcol. split; [reflexivity|].
  split; [apply cost_items_sum|].
  rewrite (costs_rows_lookup _ 6 1). reflexivity.
Qed.

(** * The name of the downloaded file *)

Lemma str_replace_length old new s :
  String.length (str_replace old new s) = String.length s.
Proof. induction s as [|c s IH]; cbn; [reflexivity|]. rewrite IH. reflexivity. Qed.

Lemma str_replace_no_old old new s :
  new <> old -> ~ In old (list_ascii_of_string (str_replace old new s)).
Proof.
  intros Hne. induction s as [|c s IH]; cbn [str_replace list_ascii_of_string]; [tauto|].
  intros [Hc|Hin]; [|tauto].
  destruct (Ascii.eqb_spec c old) as [->|Hco]; congruence.
Qed.

Lemma list_ascii_of_string_app s1 s2 :
  list_ascii_of_string (s1 ++ s2)
  = (list_ascii_of_string s1 ++ list_ascii_of_string s2)%list.
Proof.
  induction s1 as [|c s1 IH]; [reflexivity|].
  change (c :: list_ascii_of_string (s1 ++ s2)
          = c :: (list_ascii_of_string s1 ++ list_ascii_of_string s2)%list).
  f_equal. exact IH.
Qed.

Lemma string_length_app s1 s2 :
  String.length (s1 ++ s2) = (String.length s1 + String.length s2)%nat.
Proof.
  induction s1 as [|c s1 IH]; [reflexivity|].
  change (S (String.length (s1 ++ s2)) = S (String.length s1 + String.length s2)).
  f_equal. exact IH.
Qed.

(** X19. The name proposed for the downloaded file never contains a space,
    whatever the account name: every space of the name is replaced by an
    underscore, the other characters are kept, and the name is as long as the
    account name plus the 16 characters of 'Quote_' and '_2026.xlsx'. *)
Theorem quote_file_name_has_no_space client_name :
  ~ In " "%char (list_ascii_of_string (quote_file_name client_name))
  /\ String.length (quote_file_name client_name) = (16 + String.length client_name)%nat
  /\ forall i c, String.get i client_name = Some c ->
       String.get (6 + i) (quote_file_name client_name)
       = Some (if Ascii.eqb c " " then "_"%char else c).
Proof.
  unfold quote_file_name. split; [|split].
  - rewrite !list_ascii_of_string_app, !in_app_iff. intros [Hin|[Hin|Hin]].
    + cbn in Hin. repeat (destruct Hin as [Hin|Hin]; [discriminate Hin|]). exact Hin.
    + revert Hin. apply str_replace_no_old. discriminate.
    + cbn in Hin. repeat (destruct Hin as [Hin|Hin]; [discriminate Hin|]). exact Hin.
  - rewrite !string_length_app, str_replace_length. cbn [String.length]. lia.
  - intros i c Hc.
    change (String.get i (str_replace " " "_" client_name ++ "_2026.xlsx")
            = Some (if Ascii.eqb c " " then "_"%char else c)).
    revert i Hc. induction client_name as [|d s IH]; intros i Hc; [destruct i; discriminate|].
    destruct i as [|i].
    + cbn in Hc. injection Hc as ->. reflexivity.
    + cbn [String.get] in Hc.
      change (String.get i (str_replace " " "_" s ++ "_2026.xlsx")
              = Some (if Ascii.eqb c " " then "_"%char else c)).
      apply IH. exact Hc.
Qed.

Example quote_file_name_example :
  quote_file_name "Industrie du Nord SA" = "Quote_Industrie_du_Nord_SA_2026.xlsx".
Proof. reflexivity. Qed.
